(** * UrbanAPIGateway: the Urban API adapter of UrbanomyAPI

    A shallow embedding of [app/urbanomy_api/modules/urban_api_gateway.py]:
    the source-selection rule, the sources lookup, the functional-zone table,
    the project id, the territory and the indicator values, with the
    properties the specification states about them.

    Python values are an inductive type, dictionaries are association lists
    in insertion order, exceptions are values of an error monad, and the
    remote service reached through [urban_api_handler.get] is a parameter. *)

From Stdlib Require Import ZArith List String Bool Lia Arith.
Import ListNotations.
Local Open Scope string_scope.
Local Open Scope Z_scope.
Local Open Scope list_scope.

Set Implicit Arguments.
#[local] Set Warnings "-register-all".

(** ** Python values *)

(** Parsed JSON as Python has it, plus what pandas puts in a column it types
    as float64: [PNaN], the missing-value marker, and [PFloat z], the float
    it makes of the integer [z]. *)
Inductive pyval : Type :=
| PNone
| PBool (b : bool)
| PInt (z : Z)
| PFloat (z : Z)
| PNaN
| PStr (s : string)
| PList (l : list pyval)
| PDict (d : list (string * pyval)).

Definition pydict : Type := list (string * pyval).

(** Truth value of an object, as [if x] and [not x] test it. *)
Definition truthy (v : pyval) : bool :=
  match v with
  | PNone => false
  | PBool b => b
  | PInt z => negb (z =? 0)
  | PFloat z => negb (z =? 0)
  | PNaN => true
  | PStr s => negb (s =? EmptyString)%string
  | PList l => match l with [] => false | _ :: _ => true end
  | PDict d => match d with [] => false | _ :: _ => true end
  end.

(** [v == s] for a string literal [s]. *)
Definition eq_str (v : pyval) (s : string) : bool :=
  match v with
  | PStr t => (t =? s)%string
  | _ => false
  end.

(** [v == n] for an integer literal [n] ([14.0 == 14], [True == 1] and
    [False == 0] hold in Python). *)
Definition eq_int (v : pyval) (n : Z) : bool :=
  match v with
  | PInt z => z =? n
  | PFloat z => z =? n
  | PBool b => (if b then 1 else 0) =? n
  | _ => false
  end.

(** pandas' [isna]: [None] and NaN are both missing. *)
Definition isna (v : pyval) : bool :=
  match v with
  | PNone | PNaN => true
  | _ => false
  end.

(** ** Dictionaries *)

Section Dict.
Variable V : Type.

Fixpoint dict_get (k : string) (d : list (string * V)) : option V :=
  match d with
  | [] => None
  | (k', v) :: rest => if (k' =? k)%string then Some v else dict_get k rest
  end.

(** [k in d] *)
Definition dict_mem (k : string) (d : list (string * V)) : bool :=
  match dict_get k d with Some _ => true | None => false end.

(** [d[k] = v]: an existing key keeps its position, a new one goes last. *)
Fixpoint dict_set (k : string) (v : V) (d : list (string * V))
  : list (string * V) :=
  match d with
  | [] => [(k, v)]
  | (k', v') :: rest =>
      if (k' =? k)%string then (k, v) :: rest
      else (k', v') :: dict_set k v rest
  end.

(** [d.update(other)] *)
Definition dict_update (d other : list (string * V)) : list (string * V) :=
  fold_left (fun acc kv => dict_set (fst kv) (snd kv) acc) other d.

Definition dict_keys (d : list (string * V)) : list string := map fst d.
End Dict.

(** [d.get(k)], with [None] for an absent key. *)
Definition py_get (d : pydict) (k : string) : pyval :=
  match dict_get k d with Some v => v | None => PNone end.


(** ** Exceptions and the error monad *)

(** Modelled from the spec: [http_exception] of [app.dependencies] is not part
    of the sources; the specification describes it as a helper producing a
    not-found error carrying an HTTP-like status code, a message and the
    offending identifier.  The other constructors are the built-in exceptions
    the gateway can let through, and [RemoteError] is whatever the handler
    itself raised. *)
Inductive exn : Type :=
| http_exception (status_code : Z) (msg : string) (input : pyval)
| KeyError (key : string)
| ValueError (msg : string)
| TypeError (msg : string)
| AttributeError (msg : string)
| RemoteError (detail : string).

Inductive outcome (A : Type) : Type :=
| Ok (a : A)
| Raise (e : exn).

Arguments Ok {A} a.
Arguments Raise {A} e.

Definition bind {A B : Type} (c : outcome A) (k : A -> outcome B) : outcome B :=
  match c with
  | Ok a => k a
  | Raise e => Raise e
  end.

Notation "x <- c ;; k" := (bind c (fun x => k))
  (at level 61, c at next level, right associativity).

(** [try: c  except Exception: raise e] *)
Definition try_except {A : Type} (c : outcome A) (e : exn) : outcome A :=
  match c with
  | Ok a => Ok a
  | Raise _ => Raise e
  end.

Fixpoint mapM {A B : Type} (f : A -> outcome B) (l : list A) : outcome (list B) :=
  match l with
  | [] => Ok []
  | a :: rest => b <- f a ;; bs <- mapM f rest ;; Ok (b :: bs)
  end.

(** The structured not-found condition: status code 404. *)
Definition is_not_found {A : Type} (r : outcome A) : bool :=
  match r with
  | Raise (http_exception 404 _ _) => true
  | _ => false
  end.

(** [d[k]] on a dictionary. *)
Definition getitem (d : pydict) (k : string) : outcome pyval :=
  match dict_get k d with
  | Some v => Ok v
  | None => Raise (KeyError k)
  end.

(** ** Column types *)

Definition int64 (z : Z) : bool := (- 2 ^ 63 <=? z) && (z <? 2 ^ 63).

(** The dtype pandas infers for a column of Python objects
    ([lib.maybe_convert_objects], which both [DataFrame(records)] and
    [Series.apply] go through): a column of integers stays as it is; a
    column of numbers, [None] and NaN that is neither all integers nor all
    [None] becomes float64, its integers floats and its [None] NaN; any
    other column keeps its objects.  The cells are seen through [value_of],
    so that the rule serves frames of plain values and frames that also
    hold geometries.  Integers beyond int64 are not followed: their column
    is taken as one of objects. *)
Section Infer.
Variable C : Type.
Variable value_of : C -> option pyval.
Variable of_value : pyval -> C.

Definition numeric_cell (c : C) : bool :=
  match value_of c with
  | Some (PInt z) => int64 z
  | Some (PFloat _) | Some PNone | Some PNaN => true
  | _ => false
  end.

Definition integer_cell (c : C) : bool :=
  match value_of c with
  | Some (PInt _) => true
  | _ => false
  end.

Definition none_cell (c : C) : bool :=
  match value_of c with
  | Some PNone => true
  | _ => false
  end.

Definition to_float64 (c : C) : C :=
  match value_of c with
  | Some (PInt z) => of_value (PFloat z)
  | Some PNone => of_value PNaN
  | _ => c
  end.

Definition infer_dtype (col : list C) : list C :=
  if forallb numeric_cell col
     && negb (forallb integer_cell col) && negb (forallb none_cell col)
  then map to_float64 col
  else col.
End Infer.

(** The rule on a column of plain values. *)
Definition infer_objects : list pyval -> list pyval :=
  infer_dtype (fun v => Some v) (fun v => v).

(** ** Data frames *)

(** A pandas frame over the default [RangeIndex]: named columns in order, each
    holding one cell per row, so a row label is its position. *)
Section Frame.
Variable C : Type.
Variable na : C.
Variable infer : list C -> list C.

Definition DataFrame : Type := list (string * list C).

Definition in_columns (name : string) (df : DataFrame) : bool :=
  dict_mem name df.

(** Column names of [DataFrame(records)]: every key, by first appearance. *)
Definition add_key (cols : list string) (k : string) : list string :=
  if existsb (String.eqb k) cols then cols else cols ++ [k].

Definition record_columns (records : list (list (string * C))) : list string :=
  fold_left (fun cols r => fold_left add_key (dict_keys r) cols) records [].

Definition cell_of (r : list (string * C)) (name : string) : C :=
  match dict_get name r with Some v => v | None => na end.

(** The cells of [DataFrame(records)] before the columns are typed: a cell
    that a record does not provide is missing. *)
Definition record_cells (records : list (list (string * C))) : DataFrame :=
  map (fun name => (name, map (fun r => cell_of r name) records))
      (record_columns records).

(** [DataFrame(records)]: the cells, each column with the dtype inferred for
    it. *)
Definition from_records (records : list (list (string * C))) : DataFrame :=
  map (fun col => (fst col, infer (snd col))) (record_cells records).

(** [df.loc[idx].to_dict()] *)
Definition loc_to_dict (df : DataFrame) (idx : nat) : list (string * C) :=
  map (fun col => (fst col, nth idx (snd col) na)) df.

(** [df[name] = values] *)
Definition set_column (name : string) (values : list C) (df : DataFrame)
  : DataFrame :=
  dict_set name values df.

(** [df.drop(columns=names, errors='ignore')] *)
Definition drop_columns (names : list string) (df : DataFrame) : DataFrame :=
  filter (fun col => negb (existsb (String.eqb (fst col)) names)) df.

(** One column rewritten cell by cell, when the frame has it. *)
Definition map_column (name : string) (f : C -> C) (df : DataFrame)
  : DataFrame :=
  map (fun col => if (fst col =? name)%string
                  then (fst col, map f (snd col)) else col) df.
End Frame.

(** A series: cells with their row labels. *)
Definition labelled {A : Type} (l : list A) : list (nat * A) :=
  combine (seq 0 (List.length l)) l.

(** [series[mask]] *)
Definition select_rows {A : Type} (mask : list bool) (s : list (nat * A))
  : list (nat * A) :=
  map snd (filter fst (combine mask s)).

(** ** Source selection *)

(** The [year] column as pandas types it.  The embedding follows the int64
    path, the one the remote schema (an integer year per descriptor) leads
    to; a column holding anything else gets another dtype, on which the
    selection is not specified, and the model stops there with a
    [TypeError]. *)
Definition as_int64 (v : pyval) : outcome Z :=
  match v with
  | PInt z => if int64 z then Ok z
              else Raise (TypeError "year column is not int64")
  | _ => Raise (TypeError "year column is not int64")
  end.

(** [Series.idxmax()]: the label of the first occurrence of the maximum. *)
Fixpoint idxmax_from (best : nat * Z) (s : list (nat * Z)) : nat :=
  match s with
  | [] => fst best
  | (i, y) :: rest =>
      if snd best <? y then idxmax_from (i, y) rest
      else idxmax_from best rest
  end.

Definition idxmax (s : list (nat * Z)) : outcome nat :=
  match s with
  | [] => Raise (ValueError "attempt to get argmax of an empty sequence")
  | first :: rest => Ok (idxmax_from first rest)
  end.

(** [df[name]] *)
Definition getitem_column (df : DataFrame pyval) (name : string)
  : outcome (list pyval) :=
  match dict_get name df with
  | Some c => Ok c
  | None => Raise (KeyError name)
  end.

(** [idx = df[df["source"] == name]["year"].idxmax();
     return df.loc[idx].to_dict()] *)
Definition latest_of (df_sources : DataFrame pyval) (name : string)
  : outcome pydict :=
  source_column <- getitem_column df_sources "source" ;;
  let mask := map (fun v => eq_str v name) source_column in
  year_column <- getitem_column df_sources "year" ;;
  years <- mapM as_int64 year_column ;;
  idx <- idxmax (select_rows mask (labelled years)) ;;
  Ok (loc_to_dict PNaN df_sources idx).

(** [UrbanAPIGateway._form_source_params] *)
Definition _form_source_params (sources : list pydict) : outcome pydict :=
  match sources with
  | [only] => Ok only
  | _ =>
      source_names <- mapM (fun item => getitem item "source") sources ;;
      let df_sources := from_records PNaN infer_objects sources in
      if existsb (fun v => eq_str v "OSM") source_names
      then latest_of df_sources "OSM"
      else if existsb (fun v => eq_str v "PZZ") source_names
      then latest_of df_sources "PZZ"
      else latest_of df_sources "User"
  end.

(** ** The remote service *)

(** The paths the gateway builds with f-strings, kept symbolic: each
    constructor is one path template and carries the interpolated values.
    The index is the shape of the parsed JSON the code expects back:
    [_form_source_params] is declared on [list[dict]], and the other
    responses are used as dictionaries. *)
Inductive endpoint : Type -> Type :=
| functional_zone_sources_url (scenario_id : Z) : endpoint (list pydict)
| functional_zones_url (scenario_id : Z) (year source : pyval) : endpoint pydict
| scenario_url (scenario_id : Z) : endpoint pydict
| territory_url (project_id : pyval) : endpoint pydict
| indicators_values_url (scenario_id : Z) : endpoint pyval.

(** Coordinate reference systems, by EPSG code. *)
Inductive crs_t : Type := EPSG (code : Z).

Section Gateway.

(** [urban_api_handler.get]: the parsed response, or the exception raised. *)
Variable get : forall R : Type, endpoint R -> outcome R.

(** *** Sources lookup *)

(** [UrbanAPIGateway.get_functional_zone_sources] *)
Definition get_functional_zone_sources (scenario_id : Z) (source : option string)
  : outcome pydict :=
  response <- get (functional_zone_sources_url scenario_id) ;;
  match response with
  | [] =>
      Raise (http_exception 404
               "No functional zone sources found for scenario_id"
               (PInt scenario_id))
  | _ :: _ =>
      match source with
      | Some name =>
          if negb (name =? EmptyString)%string then
            match find (fun s => eq_str (py_get s "source") name) response with
            | Some ((_ :: _) as source_data) => Ok source_data
            | _ =>
                Raise (http_exception 404
                         "No data found for the specified source"
                         (PStr name))
            end
          else _form_source_params response
      | None => _form_source_params response
      end
  end.

(** *** Geospatial tables *)

(** shapely geometries and the operations of the geospatial libraries the
    gateway calls. *)
Variable geometry : Type.
Variable shape : pyval -> outcome geometry.
Variable transform : crs_t -> crs_t -> geometry -> geometry.

(** What the [GeoDataFrame] constructor does when it is given a CRS and the
    rows hold no geometry: the library's choice, left to the environment. *)
Variable crs_without_geometry : outcome unit.

Inductive cell : Type :=
| Val (v : pyval)
| Geom (g : geometry).

Record GeoDataFrame : Type := {
  table : DataFrame cell;
  crs : option crs_t
}.

Variable estimate_utm_crs : GeoDataFrame -> outcome crs_t.

Definition missing : cell := Val PNaN.

(** The dtype rule on the columns of a geospatial table: a geometry is an
    object. *)
Definition cell_value (c : cell) : option pyval :=
  match c with
  | Val v => Some v
  | Geom _ => None
  end.

Definition infer_cells : list cell -> list cell :=
  infer_dtype cell_value Val.

(** One row of [GeoDataFrame.from_features]:
    [row = {"geometry": shape(feature["geometry"]) if feature["geometry"]
            else None}; row.update(feature["properties"] or {})].
    Properties are an object or null in GeoJSON; any other value is reported
    as a [TypeError]. *)
Definition feature_row (feature : pyval) : outcome (list (string * cell)) :=
  match feature with
  | PDict f =>
      g <- getitem f "geometry" ;;
      geom <- (if truthy g then s <- shape g ;; Ok (Geom s)
               else Ok (Val PNone)) ;;
      properties <- getitem f "properties" ;;
      match properties with
      | PNone => Ok [("geometry", geom)]
      | PDict p =>
          Ok (dict_update [("geometry", geom)]
                          (map (fun kv => (fst kv, Val (snd kv))) p))
      | _ => Raise (TypeError "properties is not a mapping")
      end
  | _ => Raise (TypeError "feature is not a mapping")
  end.

Definition geometry_like (c : cell) : bool :=
  match c with
  | Geom _ => true
  | Val v => isna v
  end.

(** [GeoDataFrame(rows, crs=crs)]: the CRS goes to the geometry column, when
    the frame has one that holds geometries. *)
Definition GeoDataFrame_of (rows : list (list (string * cell))) (c : crs_t)
  : outcome GeoDataFrame :=
  let df := from_records missing infer_cells rows in
  match dict_get "geometry" df with
  | Some col =>
      if forallb geometry_like col
      then Ok {| table := df; crs := Some c |}
      else _ <- crs_without_geometry ;; Ok {| table := df; crs := None |}
  | None => _ <- crs_without_geometry ;; Ok {| table := df; crs := None |}
  end.

(** [GeoDataFrame.from_features(features, crs=crs)]: a feature collection
    gives its features, anything else is iterated as it is. *)
Definition from_features (features : pyval) (c : crs_t)
  : outcome GeoDataFrame :=
  features_lst <-
    match features with
    | PDict fs =>
        if eq_str (py_get fs "type") "FeatureCollection"
        then getitem fs "features"
        else Ok (PList (map (fun kv => PStr (fst kv)) fs))
    | other => Ok other
    end ;;
  match features_lst with
  | PList l => rows <- mapM feature_row l ;; GeoDataFrame_of rows c
  | PStr EmptyString => GeoDataFrame_of [] c
  | PDict [] => GeoDataFrame_of [] c
  | PStr _ | PDict _ => Raise (TypeError "feature is not a mapping")
  | _ => Raise (TypeError "object is not iterable")
  end.

(** [gdf.to_crs(target)] *)
Definition to_crs (gdf : GeoDataFrame) (target : crs_t) : outcome GeoDataFrame :=
  match crs gdf with
  | Some from =>
      Ok {| table := map_column "geometry"
                       (fun c => match c with
                                 | Geom g => Geom (transform from target g)
                                 | Val v => Val v
                                 end) (table gdf);
            crs := Some target |}
  | None => Raise (ValueError "Cannot transform naive geometries")
  end.

(** *** Functional zones *)

(** [lambda x: x.get('landuse_zon') if isinstance(x, dict) else None] *)
Definition landuse_zon_of (x : cell) : cell :=
  match x with
  | Val (PDict d) => Val (py_get d "landuse_zon")
  | _ => Val PNone
  end.

(** [lambda x: x.get('id') if isinstance(x, dict) else None] *)
Definition zone_type_id_of (x : cell) : cell :=
  match x with
  | Val (PDict d) => Val (py_get d "id")
  | _ => Val PNone
  end.

(** [lambda x: x.get('name') if isinstance(x, dict)
               and x.get('name') != "unknown" else "residential"] *)
Definition zone_type_name_of (x : cell) : cell :=
  match x with
  | Val (PDict d) =>
      if negb (eq_str (py_get d "name") "unknown")
      then Val (py_get d "name")
      else Val (PStr "residential")
  | _ => Val (PStr "residential")
  end.

(** [df[new] = df[old].apply(f)]: the series [apply] returns has the
    dtype inferred for the values of [f]. *)
Definition flatten_properties (df : DataFrame cell) : DataFrame cell :=
  match dict_get "properties" df with
  | Some col =>
      set_column "landuse_zone" (infer_cells (map landuse_zon_of col)) df
  | None => df
  end.

Definition flatten_zone_type (df : DataFrame cell) : DataFrame cell :=
  match dict_get "functional_zone_type" df with
  | Some col =>
      set_column "zone_type_name" (infer_cells (map zone_type_name_of col))
        (set_column "zone_type_id" (infer_cells (map zone_type_id_of col)) df)
  | None => df
  end.

Definition bookkeeping : list string :=
  ["properties"; "functional_zone_type"; "territory"; "created_at";
   "updated_at"; "zone_type_name"; "functional_zone_id"; "year"; "source";
   "name"].

(** [{None: "Residential"}]: pandas matches a missing key on every missing
    cell. *)
Definition default_landuse (c : cell) : cell :=
  match c with
  | Val v => if isna v then Val (PStr "Residential") else Val v
  | Geom g => Geom g
  end.

(** [{14: 1}]: a float column stores the 1 as a float. *)
Definition remap_zone_type (c : cell) : cell :=
  match c with
  | Val v =>
      if eq_int v 14
      then Val (match v with PFloat _ => PFloat 1 | _ => PInt 1 end)
      else Val v
  | Geom g => Geom g
  end.

(** [df.replace({"landuse_zone": {None: "Residential"},
                 "zone_type_id": {14: 1}})] *)
Definition replace_defaults (df : DataFrame cell) : DataFrame cell :=
  map_column "zone_type_id" remap_zone_type
    (map_column "landuse_zone" default_landuse df).

(** The table as it stands before the replacement: built from the
    features, flattened and pruned. *)
Definition extract_zones (features : pyval) : outcome GeoDataFrame :=
  landuse_polygons <- from_features features (EPSG 4326) ;;
  Ok {| table := drop_columns bookkeeping
                   (flatten_zone_type
                      (flatten_properties (table landuse_polygons)));
        crs := crs landuse_polygons |}.

Definition valid_source (source_data : pydict) : bool :=
  truthy (PDict source_data)
  && dict_mem "source" source_data && dict_mem "year" source_data.

Definition has_features (response : pydict) : bool :=
  truthy (PDict response)
  && dict_mem "features" response && truthy (py_get response "features").

(** [UrbanAPIGateway.get_functional_zones] *)
Definition get_functional_zones (scenario_id : Z) (is_context : bool)
           (source : option string) : outcome GeoDataFrame :=
  source_data <- get_functional_zone_sources scenario_id source ;;
  if negb (valid_source source_data) then
    Raise (http_exception 404
             "No valid source found for the given scenario ID"
             (PInt scenario_id))
  else
    source <- getitem source_data "source" ;;
    year <- getitem source_data "year" ;;
    response <- get (functional_zones_url scenario_id year source) ;;
    let features := match dict_get "features" response with
                    | Some f => f
                    | None => PDict response
                    end in
    landuse_polygons <- extract_zones features ;;
    let landuse_polygons :=
      {| table := replace_defaults (table landuse_polygons);
         crs := crs landuse_polygons |} in
    if negb (has_features response) then
      Raise (http_exception 404
               "No functional zones found for the given scenario ID"
               (PInt scenario_id))
    else Ok landuse_polygons.

(** *** Project id, territory, indicators *)

(** [x.get(k)] on an arbitrary object: only a dictionary has [get]. *)
Definition call_get (x : pyval) (k : string) : outcome pyval :=
  match x with
  | PDict d => Ok (py_get d k)
  | _ => Raise (AttributeError "object has no attribute 'get'")
  end.

(** [UrbanAPIGateway.get_project_id] *)
Definition get_project_id (scenario_id : Z) : outcome pyval :=
  response <- get (scenario_url scenario_id) ;;
  project_id <-
    try_except
      (call_get (match dict_get "project" response with
                 | Some project => project
                 | None => PDict []
                 end) "project_id")
      (http_exception 404 "Project ID is missing in scenario data."
                      (PInt scenario_id)) ;;
  Ok project_id.

(** [UrbanAPIGateway.get_territory] *)
Definition get_territory (scenario_id : Z) : outcome GeoDataFrame :=
  project_id <- get_project_id scenario_id ;;
  response <-
    try_except (get (territory_url project_id))
      (http_exception 404 "No territory found for the given scenario ID"
                      (PInt scenario_id)) ;;
  territory_geometry <- getitem response "geometry" ;;
  let territory_feature :=
    PDict [("type", PStr "Feature");
           ("geometry", territory_geometry);
           ("properties", PDict [])] in
  polygon_gdf <- from_features (PList [territory_feature]) (EPSG 4326) ;;
  utm <- estimate_utm_crs polygon_gdf ;;
  to_crs polygon_gdf utm.

(** [UrbanAPIGateway.get_indicator_values] *)
Definition get_indicator_values (scenario_id : Z) : outcome pyval :=
  try_except (get (indicators_values_url scenario_id))
    (http_exception 404
       "No indicators values found for the given scenario ID"
       (PInt scenario_id)).

End Gateway.

Arguments Val {geometry} v.
Arguments missing {geometry}.
Arguments infer_cells {geometry} _.

(** ** The statements of the specification, in the model's terms *)

(** The descriptor says its data comes from [name]. *)
Definition has_label (name : string) (d : pydict) : bool :=
  eq_str (py_get d "source") name.

(** A source descriptor as the data model has it: a string [source] and an
    integer [year]; any other field is passed through. *)
Definition descriptor (d : pydict) : bool :=
  match dict_get "source" d, dict_get "year" d with
  | Some (PStr _), Some (PInt y) => int64 y
  | _, _ => false
  end.

Definition year_of (d : pydict) : Z :=
  match dict_get "year" d with
  | Some (PInt y) => y
  | _ => 0
  end.

(** The specification's priority order: OSM, then PZZ, then User. *)
Definition spec_preferred_label (sources : list pydict) : option string :=
  if existsb (has_label "OSM") sources then Some "OSM"
  else if existsb (has_label "PZZ") sources then Some "PZZ"
  else if existsb (has_label "User") sources then Some "User"
  else None.

(** The years of the descriptors labelled [name], with their positions. *)
Fixpoint years_of_label (name : string) (n : nat) (l : list pydict)
  : list (nat * Z) :=
  match l with
  | [] => []
  | d :: rest =>
      if has_label name d then (n, year_of d) :: years_of_label name (S n) rest
      else years_of_label name (S n) rest
  end.

(** The record [latest_of] returns: the row of the frame at a label. *)
Definition frame_row (sources : list pydict) (idx : nat) : pydict :=
  loc_to_dict PNaN (from_records PNaN infer_objects sources) idx.

Definition osm20 : pydict := [("source", PStr "OSM"); ("year", PInt 2020)].
Definition osm22 : pydict := [("source", PStr "OSM"); ("year", PInt 2022)].
Definition user19 : pydict := [("source", PStr "User"); ("year", PInt 2019)].
Definition user23 : pydict := [("source", PStr "User"); ("year", PInt 2023)].
Definition pzz21 : pydict := [("source", PStr "PZZ"); ("year", PInt 2021)].

Definition survey20 : pydict := [("source", PStr "Survey"); ("year", PInt 2020)].
Definition cadastre21 : pydict :=
  [("source", PStr "Cadastre"); ("year", PInt 2021)].

(** A remote service that answers each kind of path with a fixed outcome. *)
Definition fixed_remote (sources : outcome (list pydict))
           (zones scenario territory : outcome pydict)
           (indicators : outcome pyval) (R : Type) (e : endpoint R)
  : outcome R :=
  match e in endpoint T return outcome T with
  | functional_zone_sources_url _ => sources
  | functional_zones_url _ _ _ => zones
  | scenario_url _ => scenario
  | territory_url _ => territory
  | indicators_values_url _ => indicators
  end.

Definition unreachable {A : Type} : outcome A :=
  Raise (RemoteError "connection refused").

(** A remote service that only lists sources. *)
Definition sources_only (sources : list pydict) : forall R, endpoint R -> outcome R :=
  fixed_remote (Ok sources) unreachable unreachable unreachable unreachable.

(** A remote service that only knows scenarios. *)
Definition scenario_only (scenario : pydict) : forall R, endpoint R -> outcome R :=
  fixed_remote unreachable unreachable (Ok scenario) unreachable unreachable.

(** A remote service that only serves indicator values. *)
Definition indicators_only (indicators : outcome pyval)
  : forall R, endpoint R -> outcome R :=
  fixed_remote unreachable unreachable unreachable unreachable indicators.

(** The failure is a 404 that names [ident] as the offending identifier. *)
Definition not_found_for {A : Type} (r : outcome A) (ident : pyval) : Prop :=
  exists msg, r = Raise (http_exception 404 msg ident).

(** The replacement in the specification's words: a null [landuse_zone]
    becomes "Residential", a [zone_type_id] of 14 becomes 1 (14.0 becomes 1.0
    in a column of floats), and every other cell stays as it was
    extracted. *)
Definition spec_replaced {geometry : Type} (name : string) (c : cell geometry)
  : cell geometry :=
  if (name =? "landuse_zone")%string then
    match c with
    | Val PNone | Val PNaN => Val (PStr "Residential")
    | _ => c
    end
  else if (name =? "zone_type_id")%string then
    match c with
    | Val (PInt z) => if z =? 14 then Val (PInt 1) else c
    | Val (PFloat z) => if z =? 14 then Val (PFloat 1) else c
    | _ => c
    end
  else c.

(** The feature has the property [k]. *)
Definition carries_one (k : string) (feature : pyval) : bool :=
  match feature with
  | PDict f =>
      match dict_get "properties" f with
      | Some (PDict p) => dict_mem k p
      | _ => false
      end
  | _ => false
  end.

(** Some feature of the list has the property [k]. *)
Definition carries (k : string) (features : list pyval) : bool :=
  existsb (carries_one k) features.

(** Stand-ins for the geospatial libraries: a geometry is the GeoJSON it was
    built from, with the reprojections applied to it. *)
Inductive symbolic_geometry : Type :=
| Shape (geojson : pyval)
| Projected (from to : crs_t) (g : symbolic_geometry).

Definition symbolic_shape (g : pyval) : outcome symbolic_geometry :=
  Ok (Shape g).

Definition utm36n (gdf : GeoDataFrame symbolic_geometry) : outcome crs_t :=
  Ok (EPSG 32636).

Definition square : pyval :=
  PDict [("type", PStr "Polygon");
         ("coordinates",
          PList [PList [PList [PInt 30; PInt 59]; PList [PInt 31; PInt 59];
                        PList [PInt 31; PInt 60]; PList [PInt 30; PInt 60];
                        PList [PInt 30; PInt 59]]])].

Definition feature (properties : pydict) : pyval :=
  PDict [("type", PStr "Feature"); ("geometry", square);
         ("properties", PDict properties)].

Definition feature_collection (features : list pyval) : pydict :=
  [("type", PStr "FeatureCollection"); ("features", PList features)].

(** A remote service that lists one OSM source and serves one collection of
    functional zones. *)
Definition zones_remote (zones : pydict) : forall R, endpoint R -> outcome R :=
  fixed_remote (Ok [osm22]) (Ok zones) unreachable unreachable unreachable.

(** A zone as the remote service describes it, and one without the nested
    [properties] object. *)
Definition business_zone : pyval :=
  feature [("functional_zone_id", PInt 11);
           ("functional_zone_type",
            PDict [("id", PInt 14); ("name", PStr "business")]);
           ("name", PNone); ("year", PInt 2022); ("source", PStr "OSM");
           ("properties", PDict [])].

Definition bare_zone : pyval :=
  feature [("functional_zone_type",
            PDict [("id", PInt 3); ("name", PStr "industrial")])].

(** A remote service that knows one scenario and the territory of its
    project. *)
Definition territory_remote : forall R, endpoint R -> outcome R :=
  fixed_remote unreachable unreachable
               (Ok [("project", PDict [("project_id", PInt 120)])])
               (Ok [("geometry", square)]) unreachable.

(** A library that refuses a CRS for a table without geometry. *)
Definition crs_refused : outcome unit :=
  Raise (ValueError
           "Assigning CRS to a GeoDataFrame without a geometry column is not supported").

(** A descriptor whose source is the empty string. *)
Definition blank20 : pydict :=
  [("source", PStr EmptyString); ("year", PInt 2020)].

(** The tables the two zones above come out as. *)
Definition business_table : GeoDataFrame symbolic_geometry :=
  {| table := [("geometry", [Geom (Shape square)]);
               ("landuse_zone", [Val (PStr "Residential")]);
               ("zone_type_id", [Val (PInt 1)])];
     crs := Some (EPSG 4326) |}.

Definition bare_table : GeoDataFrame symbolic_geometry :=
  {| table := [("geometry", [Geom (Shape square)]);
               ("zone_type_id", [Val (PInt 3)])];
     crs := Some (EPSG 4326) |}.

(** The geometry cell [from_features] gives a feature:
    [shape(feature["geometry"]) if feature["geometry"] else None]. *)
Definition geometry_cell {geometry : Type} (shape : pyval -> outcome geometry)
           (feature : pyval) : outcome (cell geometry) :=
  match feature with
  | PDict f =>
      g <- getitem f "geometry" ;;
      if truthy g then s <- shape g ;; Ok (Geom s) else Ok (Val PNone)
  | _ => Raise (TypeError "feature is not a mapping")
  end.

(** A cell of the geometry column as [from_features] fills it: a shape, or
    [None]. *)
Definition shape_or_none {geometry : Type} (c : cell geometry) : bool :=
  match c with
  | Geom _ => true
  | Val PNone => true
  | Val _ => false
  end.


(** A remote service that cannot be reached at all. *)
Definition offline : forall R, endpoint R -> outcome R :=
  fixed_remote unreachable unreachable unreachable unreachable unreachable.

(** Descriptors that lack one of the two fields. *)
Definition osm_undated : pydict := [("source", PStr "OSM")].
Definition undated19 : pydict := [("year", PInt 2019)].

(** A remote service that knows one scenario, whose record names no project,
    and no territory. *)
Definition orphan_remote : forall R, endpoint R -> outcome R :=
  fixed_remote unreachable unreachable (Ok [("scenario_id", PInt 7)])
               unreachable unreachable.

(** A remote service whose territory record has no geometry. *)
Definition shapeless_remote : forall R, endpoint R -> outcome R :=
  fixed_remote unreachable unreachable
               (Ok [("project", PDict [("project_id", PInt 120)])])
               (Ok [("name", PStr "plot")]) unreachable.

(** A remote service that lists one OSM source and fails on the zones. *)
Definition zoneless_remote : forall R, endpoint R -> outcome R :=
  fixed_remote (Ok [osm22]) unreachable unreachable unreachable unreachable.

(** A zone whose nested properties name its land use. *)
Definition park_zone : pyval :=
  feature [("functional_zone_type",
            PDict [("id", PInt 5); ("name", PStr "recreation")]);
           ("properties", PDict [("landuse_zon", PStr "Recreation")])].

Definition park_table : GeoDataFrame symbolic_geometry :=
  {| table := [("geometry", [Geom (Shape square); Geom (Shape square)]);
               ("landuse_zone",
                [Val (PStr "Recreation"); Val (PStr "Residential")]);
               ("zone_type_id", [Val (PInt 5); Val (PInt 1)])];
     crs := Some (EPSG 4326) |}.



(** A remote service that knows one scenario and its project, and no
    territory. *)
Definition landless_remote : forall R, endpoint R -> outcome R :=
  fixed_remote unreachable unreachable
               (Ok [("project", PDict [("project_id", PInt 120)])])
               unreachable unreachable.

(** * Properties *)

Unset Implicit Arguments.

(** ** Dictionaries and frames *)

Lemma dict_get_in_keys (V : Type) (k : string) (d : list (string * V)) (v : V) :
  dict_get k d = Some v -> In k (dict_keys d).
Proof.
  induction d as [|[k' v'] rest IH]; simpl; [discriminate|].
  destruct (String.eqb_spec k' k) as [->|Hne]; auto.
Qed.

Lemma dict_get_none_keys (V : Type) (k : string) (d : list (string * V)) :
  dict_get k d = None <-> ~ In k (dict_keys d).
Proof.
  induction d as [|[k' v'] rest IH]; simpl; [tauto|].
  destruct (String.eqb_spec k' k) as [->|Hne].
  - split; [discriminate|]. intros H; exfalso; apply H; now left.
  - rewrite IH. split; intros H; [intros [E|I]; auto | intro I; apply H; auto].
Qed.


Lemma existsb_eqb_in (k : string) (l : list string) :
  existsb (String.eqb k) l = true <-> In k l.
Proof.
  rewrite existsb_exists. split.
  - intros [x [Hin E]]. apply String.eqb_eq in E. now subst.
  - intros Hin. exists k. split; [assumption | apply String.eqb_refl].
Qed.

Lemma in_add_key (k x : string) (cols : list string) :
  In x (add_key cols k) <-> In x cols \/ x = k.
Proof.
  unfold add_key. destruct (existsb (String.eqb k) cols) eqn:E.
  - apply existsb_eqb_in in E. split; [auto | intros [H| ->]; auto].
  - rewrite in_app_iff. simpl. intuition.
Qed.

Lemma in_fold_add_key (ks : list string) :
  forall (cols : list string) (x : string),
    In x (fold_left add_key ks cols) <-> In x cols \/ In x ks.
Proof.
  induction ks as [|k ks IH]; intros cols x; simpl; [tauto|].
  rewrite IH, in_add_key. intuition.
Qed.

Lemma in_record_columns_from (C : Type) (records : list (list (string * C))) :
  forall (cols : list string) (x : string),
    In x (fold_left (fun cols r => fold_left add_key (dict_keys r) cols)
                    records cols)
    <-> In x cols \/ exists r, In r records /\ In x (dict_keys r).
Proof.
  induction records as [|r records IH]; intros cols x; simpl.
  - split; [auto | intros [H|[r [[] _]]]; assumption].
  - rewrite IH, in_fold_add_key. split.
    + intros [[H|H]|[r' [H1 H2]]]; eauto.
    + intros [H|[r' [[->|H1] H2]]]; eauto.
Qed.

Lemma in_record_columns (C : Type) (records : list (list (string * C)))
      (x : string) :
  In x (record_columns records)
  <-> exists r, In r records /\ In x (dict_keys r).
Proof.
  unfold record_columns. rewrite in_record_columns_from. simpl. tauto.
Qed.

Lemma dict_get_tabulate (V : Type) (f : string -> V) (k : string)
      (cols : list string) :
  dict_get k (map (fun name => (name, f name)) cols)
  = if existsb (String.eqb k) cols then Some (f k) else None.
Proof.
  induction cols as [|c cols IH]; simpl; [reflexivity|].
  rewrite (String.eqb_sym k c).
  destruct (String.eqb_spec c k) as [->|Hne]; simpl; auto.
Qed.

Lemma column_record_cells (C : Type) (na : C) (records : list (list (string * C)))
      (k : string) :
  (exists r, In r records /\ In k (dict_keys r)) ->
  dict_get k (record_cells na records)
  = Some (map (fun r => cell_of na r k) records).
Proof.
  intros H. unfold record_cells.
  rewrite (dict_get_tabulate _ (fun name => map (fun r => cell_of na r name) records)).
  apply in_record_columns in H. apply existsb_eqb_in in H. now rewrite H.
Qed.

Lemma row_record_cells (C : Type) (na : C) (records : list (list (string * C)))
      (idx : nat) (r : list (string * C)) :
  nth_error records idx = Some r ->
  loc_to_dict na (record_cells na records) idx
  = map (fun name => (name, cell_of na r name)) (record_columns records).
Proof.
  intros H. unfold loc_to_dict, record_cells. rewrite map_map.
  apply map_ext. intros name. simpl. f_equal.
  apply nth_error_nth.
  now apply (map_nth_error (fun r => cell_of na r name)).
Qed.

(** ** Source selection *)

Lemma descriptor_fields (d : pydict) :
  descriptor d = true ->
  exists s, dict_get "source" d = Some (PStr s)
            /\ dict_get "year" d = Some (PInt (year_of d))
            /\ int64 (year_of d) = true.
Proof.
  unfold descriptor, year_of.
  destruct (dict_get "source" d) as [[| | | | |s| |]|]; try discriminate.
  destruct (dict_get "year" d) as [[| |y| | | | |]|]; try discriminate.
  intros H. now exists s.
Qed.

Lemma source_names_of (sources : list pydict) :
  forallb descriptor sources = true ->
  mapM (fun item => getitem item "source") sources
  = Ok (map (fun d => py_get d "source") sources).
Proof.
  induction sources as [|d rest IH]; simpl; [reflexivity|].
  intros H. apply andb_prop in H. destruct H as [Hd Hrest].
  rewrite (IH Hrest). destruct (descriptor_fields d Hd) as [s [Hs _]].
  unfold getitem, py_get. now rewrite Hs.
Qed.

Lemma label_among_names (name : string) (sources : list pydict) :
  existsb (fun v => eq_str v name) (map (fun d => py_get d "source") sources)
  = existsb (has_label name) sources.
Proof.
  induction sources as [|d rest IH]; simpl; [reflexivity|].
  now rewrite IH.
Qed.

Lemma year_column_int64 (sources : list pydict) :
  forallb descriptor sources = true ->
  mapM as_int64 (map (fun r => cell_of PNaN r "year") sources)
  = Ok (map year_of sources).
Proof.
  induction sources as [|d rest IH]; simpl; [reflexivity|].
  intros H. apply andb_prop in H. destruct H as [Hd Hrest].
  rewrite (IH Hrest). destruct (descriptor_fields d Hd) as [s [_ [Hy Hi]]].
  unfold cell_of. rewrite Hy. simpl. now rewrite Hi.
Qed.

Lemma source_cell_label (name : string) (d : pydict) :
  descriptor d = true ->
  eq_str (cell_of PNaN d "source") name = has_label name d.
Proof.
  intros Hd. destruct (descriptor_fields d Hd) as [s [Hs _]].
  unfold cell_of, has_label, py_get. now rewrite Hs.
Qed.

Lemma select_rows_years (name : string) (l : list pydict) :
  forallb descriptor l = true ->
  forall n : nat,
    select_rows (map (fun v => eq_str v name)
                     (map (fun r => cell_of PNaN r "source") l))
                (combine (seq n (List.length (map year_of l))) (map year_of l))
    = years_of_label name n l.
Proof.
  unfold select_rows.
  induction l as [|d rest IH]; intros H n; simpl; [reflexivity|].
  apply andb_prop in H. destruct H as [Hd Hrest].
  rewrite (source_cell_label name d Hd).
  destruct (has_label name d); simpl; now rewrite (IH Hrest).
Qed.




Lemma idxmax_no_label (name : string) (l : list pydict) :
  existsb (has_label name) l = false ->
  forall n : nat, years_of_label name n l = [].
Proof.
  induction l as [|d rest IH]; simpl; [reflexivity|].
  intros H n. apply orb_false_elim in H. destruct H as [Hd Hrest].
  rewrite Hd. now apply IH.
Qed.

(** *** Typed columns *)

Lemma dict_get_retyped (C : Type) (g : list C -> list C) (k : string)
      (df : DataFrame C) :
  dict_get k (map (fun col => (fst col, g (snd col))) df)
  = option_map g (dict_get k df).
Proof.
  induction df as [|[k' col] rest IH]; simpl; [reflexivity|].
  now destruct (k' =? k)%string.
Qed.

Lemma column_from_records (C : Type) (na : C) (infer : list C -> list C)
      (records : list (list (string * C))) (k : string) :
  (exists r, In r records /\ In k (dict_keys r)) ->
  dict_get k (from_records na infer records)
  = Some (infer (map (fun r => cell_of na r k) records)).
Proof.
  intros H. unfold from_records. rewrite dict_get_retyped.
  now rewrite (column_record_cells C na records k H).
Qed.

Lemma in_columns_from_records (C : Type) (na : C) (infer : list C -> list C)
      (records : list (list (string * C))) (k : string) :
  in_columns k (from_records na infer records)
  = in_columns k (record_cells na records).
Proof.
  unfold in_columns, dict_mem, from_records. rewrite dict_get_retyped.
  now destruct (dict_get k (record_cells na records)).
Qed.

Lemma infer_dtype_length (C : Type) (value_of : C -> option pyval)
      (of_value : pyval -> C) (col : list C) :
  List.length (infer_dtype value_of of_value col) = List.length col.
Proof.
  unfold infer_dtype.
  destruct (forallb (numeric_cell value_of) col
            && negb (forallb (integer_cell value_of) col)
            && negb (forallb (none_cell value_of) col));
    [apply length_map | reflexivity].
Qed.


Lemma infer_dtype_integers (C : Type) (value_of : C -> option pyval)
      (of_value : pyval -> C) (col : list C) :
  forallb (integer_cell value_of) col = true ->
  infer_dtype value_of of_value col = col.
Proof.
  intros H. unfold infer_dtype. rewrite H. simpl.
  now rewrite andb_false_r.
Qed.

Lemma infer_dtype_nones (C : Type) (value_of : C -> option pyval)
      (of_value : pyval -> C) (col : list C) :
  forallb (none_cell value_of) col = true ->
  infer_dtype value_of of_value col = col.
Proof.
  intros H. unfold infer_dtype. rewrite H. simpl.
  now rewrite andb_false_r.
Qed.

Lemma infer_dtype_objects (C : Type) (value_of : C -> option pyval)
      (of_value : pyval -> C) (col : list C) :
  forallb (numeric_cell value_of) col = false ->
  infer_dtype value_of of_value col = col.
Proof. intros H. unfold infer_dtype. now rewrite H. Qed.

Lemma source_column_typed (sources : list pydict) :
  forallb descriptor sources = true ->
  infer_objects (map (fun r => cell_of PNaN r "source") sources)
  = map (fun r => cell_of PNaN r "source") sources.
Proof.
  intros Hwf. destruct sources as [|d rest]; [reflexivity|].
  apply infer_dtype_objects. simpl in *. apply andb_prop in Hwf.
  destruct (descriptor_fields d (proj1 Hwf)) as [s [Hs _]].
  unfold cell_of, numeric_cell. now rewrite Hs.
Qed.

Lemma year_column_typed (sources : list pydict) :
  forallb descriptor sources = true ->
  infer_objects (map (fun r => cell_of PNaN r "year") sources)
  = map (fun r => cell_of PNaN r "year") sources.
Proof.
  intros Hwf. apply infer_dtype_integers.
  induction sources as [|d rest IH]; [reflexivity|].
  simpl in *. apply andb_prop in Hwf. destruct Hwf as [Hd Hrest].
  destruct (descriptor_fields d Hd) as [s [_ [Hy _]]].
  rewrite (IH Hrest). unfold cell_of, integer_cell. now rewrite Hy.
Qed.

Lemma descriptor_keys (sources : list pydict) (k : string) :
  sources <> [] ->
  forallb descriptor sources = true ->
  (k = "source" \/ k = "year")%string ->
  exists r, In r sources /\ In k (dict_keys r).
Proof.
  intros Hne Hwf Hk. destruct sources as [|d rest]; [now elim Hne|].
  exists d. split; [now left|]. simpl in Hwf. apply andb_prop in Hwf.
  destruct (descriptor_fields d (proj1 Hwf)) as [s [Hs [Hy _]]].
  destruct Hk as [->| ->]; eapply dict_get_in_keys; eauto.
Qed.

(** The labelled years that [latest_of] takes the maximum of. *)
Lemma latest_of_years (name : string) (sources : list pydict) :
  sources <> [] ->
  forallb descriptor sources = true ->
  latest_of (from_records PNaN infer_objects sources) name
  = (idx <- idxmax (years_of_label name 0 sources) ;;
     Ok (frame_row sources idx)).
Proof.
  intros Hne Hwf. unfold latest_of, getitem_column.
  rewrite column_from_records by (apply descriptor_keys; auto).
  rewrite (source_column_typed sources Hwf). simpl.
  rewrite column_from_records by (apply descriptor_keys; auto).
  rewrite (year_column_typed sources Hwf). simpl.
  rewrite (year_column_int64 sources Hwf). simpl.
  unfold labelled. now rewrite (select_rows_years name sources Hwf 0).
Qed.





Lemma form_source_params_many (sources : list pydict) :
  List.length sources <> 1%nat ->
  forallb descriptor sources = true ->
  _form_source_params sources
  = if existsb (has_label "OSM") sources
    then latest_of (from_records PNaN infer_objects sources) "OSM"
    else if existsb (has_label "PZZ") sources
    then latest_of (from_records PNaN infer_objects sources) "PZZ"
    else latest_of (from_records PNaN infer_objects sources) "User".
Proof.
  intros Hlen Hwf.
  destruct sources as [|x [|y rest]]; [reflexivity | now elim Hlen |].
  unfold _form_source_params.
  rewrite (source_names_of (x :: y :: rest) Hwf). unfold bind.
  now rewrite !label_among_names.
Qed.


(** The first two testable properties of the specification. *)
Example selects_latest_osm :
  _form_source_params [osm20; osm22; user19] = Ok osm22.
Proof. reflexivity. Qed.

Example prefers_pzz_to_user :
  _form_source_params [pzz21; user23] = Ok pzz21.
Proof. reflexivity. Qed.

(** A field that is not part of the selection goes through the frame: a
    [None] next to a number comes back as NaN. *)
Example passthrough_is_retyped :
  _form_source_params
    [[("source", PStr "OSM"); ("year", PInt 2022); ("area", PNone)];
     [("source", PStr "User"); ("year", PInt 2019); ("area", PInt 3)]]
  = Ok [("source", PStr "OSM"); ("year", PInt 2022); ("area", PNaN)].
Proof. reflexivity. Qed.


(** C2. Source selection on two or more descriptors none of which is
    labelled OSM, PZZ or User: the fallback looks for the greatest year among
    the User descriptors, finds none, and the lookup failure of [idxmax]
    leaves the function as an unhandled [ValueError], not as a 404. *)
Theorem form_source_params_unlabelled (sources : list pydict) :
  (2 <= List.length sources)%nat ->
  forallb descriptor sources = true ->
  spec_preferred_label sources = None ->
  _form_source_params sources
  = Raise (ValueError "attempt to get argmax of an empty sequence")
  /\ is_not_found (_form_source_params sources) = false.
Proof.
  intros Hlen Hwf Hpref.
  assert (Hres : _form_source_params sources
                 = Raise (ValueError "attempt to get argmax of an empty sequence")).
  { rewrite (form_source_params_many sources) by (assumption || lia).
    unfold spec_preferred_label in Hpref.
    destruct (existsb (has_label "OSM") sources); [discriminate|].
    destruct (existsb (has_label "PZZ") sources); [discriminate|].
    destruct (existsb (has_label "User") sources) eqn:Huser; [discriminate|].
    rewrite latest_of_years; auto.
    - now rewrite (idxmax_no_label "User" sources Huser 0).
    - intros ->. simpl in Hlen. lia. }
  split; [assumption | now rewrite Hres].
Qed.

Lemma form_source_params_unlabelled_witness :
  _form_source_params [survey20; cadastre21]
  = Raise (ValueError "attempt to get argmax of an empty sequence")
  /\ is_not_found (_form_source_params [survey20; cadastre21]) = false.
Proof.
  apply (form_source_params_unlabelled [survey20; cadastre21]).
  - simpl. lia.
  - reflexivity.
  - reflexivity.
Defined.

(** ** Sources lookup *)

Lemma find_first_label (name : string) (before after : list pydict)
      (chosen : pydict) :
  has_label name chosen = true ->
  (forall d, In d before -> has_label name d = false) ->
  find (fun s => eq_str (py_get s "source") name) (before ++ chosen :: after)
  = Some chosen.
Proof.
  intros Hc. induction before as [|d rest IH]; intros Hb; simpl.
  - unfold has_label in Hc. now rewrite Hc.
  - pose proof (Hb d (or_introl eq_refl)) as Hd. unfold has_label in Hd.
    rewrite Hd. apply IH. intros d' Hin. apply Hb. now right.
Qed.

Lemma find_no_label (name : string) (l : list pydict) :
  (forall d, In d l -> has_label name d = false) ->
  find (fun s => eq_str (py_get s "source") name) l = None.
Proof.
  induction l as [|d rest IH]; intros H; simpl; [reflexivity|].
  pose proof (H d (or_introl eq_refl)) as Hd. unfold has_label in Hd.
  rewrite Hd. apply IH. intros d' Hin. apply H. now right.
Qed.

Lemma labelled_nonempty (name : string) (d : pydict) :
  has_label name d = true -> d <> [].
Proof. intros H ->. discriminate. Qed.

(** C5, as stated, fails on an empty sources list: the lookup stops at its
    first guard, and the 404 it raises names the scenario, not the requested
    source. *)
Lemma sources_lookup_empty_names_scenario :
  (forall d, In d (@nil pydict) -> has_label "OSM" d = false)
  /\ ~ not_found_for
         (get_functional_zone_sources (sources_only []) 7 (Some "OSM"))
         (PStr "OSM").
Proof.
  split; [intros d []|]. intros [msg H]. discriminate H.
Qed.

(** C5, amended. Sources lookup ([get_functional_zone_sources]) with a
    non-empty explicit source argument: when the remote list is not empty and
    no descriptor in it has that [source], the lookup fails with a 404 that
    carries the requested source name; when the remote list is empty, it
    fails with a 404 that carries the scenario id. *)
Theorem sources_lookup_absent_source
        (get : forall R, endpoint R -> outcome R) (scenario_id : Z)
        (name : string) (response : list pydict) :
  get _ (functional_zone_sources_url scenario_id) = Ok response ->
  name <> EmptyString ->
  (forall d, In d response -> has_label name d = false) ->
  (response <> [] ->
   get_functional_zone_sources get scenario_id (Some name)
   = Raise (http_exception 404 "No data found for the specified source"
                           (PStr name)))
  /\ (response = [] ->
      get_functional_zone_sources get scenario_id (Some name)
      = Raise (http_exception 404
                 "No functional zone sources found for scenario_id"
                 (PInt scenario_id))).
Proof.
  intros Hget Hname Hnone. unfold get_functional_zone_sources.
  rewrite Hget. simpl. split.
  - intros Hne. destruct response as [|d rest]; [now elim Hne|].
    apply String.eqb_neq in Hname. rewrite Hname. simpl negb. cbv iota.
    now rewrite (find_no_label name (d :: rest) Hnone).
  - now intros ->.
Qed.

Lemma sources_lookup_absent_source_witness :
  (([pzz21; user23] : list pydict) <> [] ->
   get_functional_zone_sources (sources_only [pzz21; user23]) 7 (Some "OSM")
   = Raise (http_exception 404 "No data found for the specified source"
                           (PStr "OSM")))
  /\ (([pzz21; user23] : list pydict) = [] ->
      get_functional_zone_sources (sources_only [pzz21; user23]) 7 (Some "OSM")
      = Raise (http_exception 404
                 "No functional zone sources found for scenario_id"
                 (PInt 7))).
Proof.
  apply (sources_lookup_absent_source (sources_only [pzz21; user23]) 7 "OSM"
                                      [pzz21; user23]).
  - reflexivity.
  - discriminate.
  - intros d [<-|[<-|[]]]; reflexivity.
Defined.

(** C10, as stated, fails on an empty source argument: the argument matches
    the first descriptor, but [if source:] takes it for no argument and the
    automatic selection answers with another one. *)
Lemma sources_lookup_blank_argument :
  has_label EmptyString blank20 = true
  /\ get_functional_zone_sources (sources_only [blank20; osm22]) 7
                                 (Some EmptyString)
     = Ok osm22
  /\ osm22 <> blank20.
Proof. repeat split. discriminate. Qed.

(** C10, amended. Sources lookup with a non-empty explicit source argument
    that some descriptor matches: the result is the first matching
    descriptor in the order of the remote list, whatever the years are. *)
Theorem sources_lookup_first_match
        (get : forall R, endpoint R -> outcome R) (scenario_id : Z)
        (name : string) (before after : list pydict) (chosen : pydict) :
  get _ (functional_zone_sources_url scenario_id)
  = Ok (before ++ chosen :: after) ->
  name <> EmptyString ->
  has_label name chosen = true ->
  (forall d, In d before -> has_label name d = false) ->
  get_functional_zone_sources get scenario_id (Some name) = Ok chosen.
Proof.
  intros Hget Hname Hc Hb. unfold get_functional_zone_sources.
  rewrite Hget. simpl.
  apply String.eqb_neq in Hname. rewrite Hname. simpl negb. cbv iota.
  rewrite (find_first_label name before after chosen Hc Hb).
  pose proof (labelled_nonempty name chosen Hc) as Hne.
  destruct chosen as [|kv rest]; [now elim Hne|].
  now destruct before.
Qed.

Lemma sources_lookup_first_match_witness :
  get_functional_zone_sources (sources_only [user19; osm20; osm22]) 7
                              (Some "OSM")
  = Ok osm20.
Proof.
  apply (sources_lookup_first_match (sources_only [user19; osm20; osm22]) 7
                                    "OSM" [user19] [osm22] osm20).
  - reflexivity.
  - discriminate.
  - reflexivity.
  - intros d [<-|[]]. reflexivity.
Defined.

(** On the same list the automatic selection takes the later year. *)
Example automatic_selection_takes_latest :
  get_functional_zone_sources (sources_only [user19; osm20; osm22]) 7 None
  = Ok osm22.
Proof. reflexivity. Qed.

(** ** Project id *)

(** C3. [get_project_id] on a scenario record without a project id, be it
    that the record has no [project] object or that the object has no
    [project_id]: both lookups are [get] calls with a default, nothing is
    raised inside the [try], and the caller receives [None] instead of the
    404 the handler of the [try] would raise. *)
Theorem project_id_missing_returns_none
        (get : forall R, endpoint R -> outcome R) (scenario_id : Z)
        (response : pydict) :
  get _ (scenario_url scenario_id) = Ok response ->
  dict_get "project" response = None
  \/ (exists project, dict_get "project" response = Some (PDict project)
                      /\ dict_get "project_id" project = None) ->
  get_project_id get scenario_id = Ok PNone
  /\ is_not_found (get_project_id get scenario_id) = false.
Proof.
  intros Hget Hmissing.
  assert (H : get_project_id get scenario_id = Ok PNone).
  { unfold get_project_id. rewrite Hget. simpl.
    destruct Hmissing as [Hp|[project [Hp Hid]]]; rewrite Hp; simpl.
    - reflexivity.
    - unfold py_get. now rewrite Hid. }
  split; [assumption | now rewrite H].
Qed.

Lemma project_id_missing_returns_none_witness :
  get_project_id (scenario_only [("scenario_id", PInt 7)]) 7 = Ok PNone
  /\ is_not_found
       (get_project_id (scenario_only [("scenario_id", PInt 7)]) 7) = false.
Proof.
  apply (project_id_missing_returns_none
           (scenario_only [("scenario_id", PInt 7)]) 7
           [("scenario_id", PInt 7)]).
  - reflexivity.
  - left. reflexivity.
Defined.

(** The 404 of [get_project_id] is reached when [project] is present and is
    not an object. *)
Example project_null_is_not_found :
  get_project_id (scenario_only [("project", PNone)]) 7
  = Raise (http_exception 404 "Project ID is missing in scenario data."
                          (PInt 7)).
Proof. reflexivity. Qed.

(** ** Indicator values *)

(** C9. [get_indicator_values] hands the remote response over unchanged when
    the remote call returns, and raises a 404 naming the scenario exactly
    when the remote call raises. *)
Theorem indicator_values_pass_through
        (get : forall R, endpoint R -> outcome R) (scenario_id : Z) :
  (forall response,
      get _ (indicators_values_url scenario_id) = Ok response ->
      get_indicator_values get scenario_id = Ok response)
  /\ (forall e,
         get _ (indicators_values_url scenario_id) = Raise e ->
         get_indicator_values get scenario_id
         = Raise (http_exception 404
                    "No indicators values found for the given scenario ID"
                    (PInt scenario_id)))
  /\ (is_not_found (get_indicator_values get scenario_id) = true
      <-> exists e, get _ (indicators_values_url scenario_id) = Raise e).
Proof.
  unfold get_indicator_values.
  destruct (get _ (indicators_values_url scenario_id)) as [v|e]; simpl.
  - repeat split; try congruence; try discriminate.
    intros [e H]. discriminate.
  - repeat split; try congruence; try discriminate. intros _. now exists e.
Qed.

Lemma indicator_values_pass_through_witness :
  get_indicator_values (indicators_only (Ok (PDict [("population", PInt 5)]))) 7
  = Ok (PDict [("population", PInt 5)])
  /\ get_indicator_values (indicators_only unreachable) 7
     = Raise (http_exception 404
                "No indicators values found for the given scenario ID"
                (PInt 7)).
Proof.
  split.
  - apply (proj1 (indicator_values_pass_through
                    (indicators_only (Ok (PDict [("population", PInt 5)]))) 7)).
    reflexivity.
  - apply (proj1 (proj2 (indicator_values_pass_through
                           (indicators_only unreachable) 7))
                 (RemoteError "connection refused")).
    reflexivity.
Defined.

(** ** Columns of a frame *)

Lemma dict_get_set (V : Type) (k n : string) (v : V) (d : list (string * V)) :
  dict_get k (dict_set n v d)
  = if (n =? k)%string then Some v else dict_get k d.
Proof.
  induction d as [|[k' v'] rest IH]; simpl.
  - reflexivity.
  - destruct (String.eqb_spec k' n) as [->|Hne]; simpl.
    + destruct (n =? k)%string; reflexivity.
    + rewrite IH. destruct (String.eqb_spec k' k) as [->|Hk]; [|reflexivity].
      destruct (String.eqb_spec n k) as [->|_]; [now elim Hne | reflexivity].
Qed.

Lemma dict_mem_set (V : Type) (k n : string) (v : V) (d : list (string * V)) :
  dict_mem k (dict_set n v d) = (n =? k)%string || dict_mem k d.
Proof.
  unfold dict_mem. rewrite dict_get_set. now destruct (n =? k)%string.
Qed.

Lemma dict_get_drop (C : Type) (k : string) (names : list string)
      (df : DataFrame C) :
  dict_get k (drop_columns names df)
  = if existsb (String.eqb k) names then None else dict_get k df.
Proof.
  induction df as [|[k' col] rest IH]; simpl.
  - now destruct (existsb (String.eqb k) names).
  - destruct (String.eqb_spec k' k) as [->|Hne].
    + destruct (existsb (String.eqb k) names) eqn:E; simpl.
      * assumption.
      * now rewrite String.eqb_refl.
    + destruct (existsb (String.eqb k') names); simpl; [assumption|].
      apply String.eqb_neq in Hne. now rewrite Hne.
Qed.

Lemma dict_get_map_column (C : Type) (k n : string) (f : C -> C)
      (df : DataFrame C) :
  dict_get k (map_column n f df)
  = if (k =? n)%string then option_map (map f) (dict_get k df)
    else dict_get k df.
Proof.
  induction df as [|[k' col] rest IH]; simpl.
  - now destruct (k =? n)%string.
  - destruct (String.eqb_spec k' n) as [->|Hn]; simpl.
    + destruct (String.eqb_spec n k) as [->|Hk].
      * now rewrite String.eqb_refl.
      * assumption.
    + destruct (String.eqb_spec k' k) as [->|Hk]; [|assumption].
      apply String.eqb_neq in Hn. now rewrite Hn.
Qed.

Lemma dict_mem_map_column (C : Type) (k n : string) (f : C -> C)
      (df : DataFrame C) :
  dict_mem k (map_column n f df) = dict_mem k df.
Proof.
  unfold dict_mem. rewrite dict_get_map_column.
  destruct (k =? n)%string; [|reflexivity]. now destruct (dict_get k df).
Qed.

Lemma dict_mem_in_keys (V : Type) (k : string) (d : list (string * V)) :
  dict_mem k d = true <-> In k (dict_keys d).
Proof.
  unfold dict_mem. destruct (dict_get k d) as [v|] eqn:E.
  - split; [intros _; eapply dict_get_in_keys; eauto | reflexivity].
  - apply dict_get_none_keys in E. split; [discriminate | contradiction].
Qed.

Lemma in_keys_set (V : Type) (x k : string) (v : V) (d : list (string * V)) :
  In x (dict_keys (dict_set k v d)) <-> x = k \/ In x (dict_keys d).
Proof.
  rewrite <- !dict_mem_in_keys, dict_mem_set.
  destruct (String.eqb_spec k x) as [->|Hne]; simpl.
  - intuition.
  - split; [auto | intros [->|H]; [now elim Hne | assumption]].
Qed.

Lemma in_keys_update (V : Type) (other : list (string * V)) :
  forall (d : list (string * V)) (x : string),
    In x (dict_keys (dict_update d other))
    <-> In x (dict_keys d) \/ In x (dict_keys other).
Proof.
  unfold dict_update.
  induction other as [|[k v] rest IH]; intros d x; simpl; [tauto|].
  rewrite IH, in_keys_set. intuition.
Qed.

Lemma in_columns_record_cells (C : Type) (na : C)
      (records : list (list (string * C))) (k : string) :
  in_columns k (record_cells na records) = true
  <-> exists r, In r records /\ In k (dict_keys r).
Proof.
  unfold in_columns, dict_mem, record_cells.
  rewrite (dict_get_tabulate _ (fun name => map (fun r => cell_of na r name) records)).
  rewrite <- in_record_columns, <- existsb_eqb_in.
  destruct (existsb (String.eqb k) (record_columns records));
    split; congruence.
Qed.

(** ** Functional zones *)

Section Zones.
Variable get : forall R, endpoint R -> outcome R.
Variable geometry : Type.
Variable shape : pyval -> outcome geometry.
Variable crs_without_geometry : outcome unit.

Lemma default_landuse_spec (c : cell geometry) :
  default_landuse c = spec_replaced "landuse_zone" c.
Proof. destruct c as [[]|]; reflexivity. Qed.

Lemma remap_zone_type_spec (c : cell geometry) :
  remap_zone_type c = spec_replaced "zone_type_id" c.
Proof.
  destruct c as [[| b | z | | | | |]|]; try reflexivity.
  unfold remap_zone_type, eq_int. now destruct b.
Qed.

Lemma spec_replaced_other (name : string) (c : cell geometry) :
  name <> "landuse_zone"%string -> name <> "zone_type_id"%string ->
  spec_replaced name c = c.
Proof.
  intros H1 H2. unfold spec_replaced.
  apply String.eqb_neq in H1, H2. now rewrite H1, H2.
Qed.

Lemma dict_get_replace_defaults (name : string) (df : DataFrame (cell geometry)) :
  dict_get name (replace_defaults df)
  = option_map (map (spec_replaced name)) (dict_get name df).
Proof.
  unfold replace_defaults. rewrite !dict_get_map_column.
  destruct (String.eqb_spec name "zone_type_id") as [->|Hz].
  - simpl. destruct (dict_get "zone_type_id" df) as [col|]; simpl; [|reflexivity].
    f_equal. apply map_ext. apply remap_zone_type_spec.
  - destruct (String.eqb_spec name "landuse_zone") as [->|Hl].
    + destruct (dict_get "landuse_zone" df) as [col|]; simpl; [|reflexivity].
      f_equal. apply map_ext. apply default_landuse_spec.
    + destruct (dict_get name df) as [col|]; simpl; [|reflexivity].
      f_equal. rewrite <- (map_id col) at 1. apply map_ext.
      intros c. symmetry. now apply spec_replaced_other.
Qed.

Lemma in_columns_replace_defaults (name : string)
      (df : DataFrame (cell geometry)) :
  in_columns name (replace_defaults df) = in_columns name df.
Proof.
  unfold replace_defaults, in_columns. now rewrite !dict_mem_map_column.
Qed.

Lemma in_columns_flatten_properties (name : string)
      (df : DataFrame (cell geometry)) :
  in_columns name (flatten_properties df)
  = in_columns name df
    || ((name =? "landuse_zone")%string && in_columns "properties" df).
Proof.
  unfold flatten_properties, in_columns, set_column.
  unfold dict_mem at 3.
  destruct (dict_get "properties" df) as [col|].
  - rewrite dict_mem_set, (String.eqb_sym "landuse_zone" name).
    rewrite andb_true_r. apply orb_comm.
  - now rewrite andb_false_r, orb_false_r.
Qed.

Lemma in_columns_flatten_zone_type (name : string)
      (df : DataFrame (cell geometry)) :
  in_columns name (flatten_zone_type df)
  = in_columns name df
    || (((name =? "zone_type_id")%string || (name =? "zone_type_name")%string)
        && in_columns "functional_zone_type" df).
Proof.
  unfold flatten_zone_type, in_columns, set_column.
  unfold dict_mem at 3.
  destruct (dict_get "functional_zone_type" df) as [col|].
  - rewrite !dict_mem_set, (String.eqb_sym "zone_type_id" name),
      (String.eqb_sym "zone_type_name" name).
    rewrite andb_true_r.
    destruct (name =? "zone_type_id")%string,
             (name =? "zone_type_name")%string, (dict_mem name df);
      reflexivity.
  - now rewrite andb_false_r, orb_false_r.
Qed.

Lemma in_columns_drop (name : string) (names : list string)
      (df : DataFrame (cell geometry)) :
  in_columns name (drop_columns names df)
  = negb (existsb (String.eqb name) names) && in_columns name df.
Proof.
  unfold in_columns, dict_mem. rewrite dict_get_drop.
  now destruct (existsb (String.eqb name) names).
Qed.

(** What a returned table was made of. *)
Lemma zones_returned (scenario_id : Z) (is_context : bool)
      (source_arg : option string) (result : GeoDataFrame geometry) :
  get_functional_zones get shape crs_without_geometry scenario_id
                       is_context source_arg = Ok result ->
  exists source_data source year response features extracted,
    get_functional_zone_sources get scenario_id source_arg = Ok source_data
    /\ dict_get "source" source_data = Some source
    /\ dict_get "year" source_data = Some year
    /\ get _ (functional_zones_url scenario_id year source) = Ok response
    /\ dict_get "features" response = Some features
    /\ truthy features = true
    /\ extract_zones shape crs_without_geometry features = Ok extracted
    /\ result = {| table := replace_defaults (table extracted);
                   crs := crs extracted |}.
Proof.
  intros H. unfold get_functional_zones in H.
  destruct (get_functional_zone_sources get scenario_id source_arg)
    as [source_data|e] eqn:Hs; simpl in H; [|discriminate].
  destruct (valid_source source_data); simpl in H; [|discriminate].
  unfold getitem in H.
  destruct (dict_get "source" source_data) as [source|] eqn:Hsrc;
    simpl in H; [|discriminate].
  destruct (dict_get "year" source_data) as [year|] eqn:Hyear;
    simpl in H; [|discriminate].
  destruct (get _ (functional_zones_url scenario_id year source))
    as [response|e] eqn:Hr; simpl in H; [|discriminate].
  unfold has_features, dict_mem, py_get in H.
  destruct (dict_get "features" response) as [features|] eqn:Hf.
  - destruct (extract_zones shape crs_without_geometry features)
      as [extracted|e] eqn:He; simpl in H; [|discriminate].
    rewrite andb_true_r in H.
    destruct response as [|kv rest]; [discriminate|].
    simpl truthy in H at 1. simpl andb in H.
    destruct (truthy features) eqn:Ht; simpl in H; [|discriminate].
    injection H as <-.
    exists source_data, source, year, (kv :: rest), features, extracted.
    repeat split; auto.
  - rewrite andb_false_r in H. simpl in H.
    destruct (extract_zones shape crs_without_geometry (PDict response));
      simpl in H; discriminate.
Qed.

Lemma extract_zones_built (features : pyval)
      (extracted : GeoDataFrame geometry) :
  extract_zones shape crs_without_geometry features = Ok extracted ->
  exists raw,
    from_features shape crs_without_geometry features (EPSG 4326) = Ok raw
    /\ table extracted
       = drop_columns bookkeeping
           (flatten_zone_type (flatten_properties (table raw))).
Proof.
  unfold extract_zones. intros H.
  destruct (from_features shape crs_without_geometry features (EPSG 4326))
    as [raw|e]; simpl in H; [|discriminate].
  injection H as <-. now exists raw.
Qed.

Lemma from_features_rows (feats : list pyval) (c : crs_t)
      (raw : GeoDataFrame geometry) :
  from_features shape crs_without_geometry (PList feats) c = Ok raw ->
  exists rows,
    mapM (feature_row shape) feats = Ok rows
    /\ table raw = from_records missing infer_cells rows.
Proof.
  unfold from_features. simpl. intros H.
  destruct (mapM (feature_row shape) feats) as [rows|e]; simpl in H;
    [|discriminate].
  exists rows. split; [reflexivity|].
  unfold GeoDataFrame_of in H.
  destruct (dict_get "geometry" (from_records missing infer_cells rows))
    as [col|].
  - destruct (forallb (@geometry_like geometry) col).
    + now injection H as <-.
    + destruct crs_without_geometry; simpl in H; [|discriminate].
      now injection H as <-.
  - destruct crs_without_geometry; simpl in H; [|discriminate].
    now injection H as <-.
Qed.

Lemma keys_of_values (p : pydict) :
  dict_keys (map (fun kv => (fst kv, @Val geometry (snd kv))) p)
  = dict_keys p.
Proof. unfold dict_keys. rewrite map_map. now apply map_ext. Qed.

Lemma feature_row_keys (f : pyval) (row : list (string * cell geometry)) :
  feature_row shape f = Ok row ->
  In "geometry"%string (dict_keys row)
  /\ forall k, k <> "geometry"%string ->
               (In k (dict_keys row) <-> carries_one k f = true).
Proof.
  unfold feature_row, carries_one.
  destruct f as [| | | | | | |f]; try discriminate.
  unfold getitem.
  destruct (dict_get "geometry" f) as [g|]; simpl; [|discriminate].
  intros H.
  assert (Hrow : exists geom,
             match dict_get "properties" f with
             | Some PNone => Ok [("geometry"%string, geom)]
             | Some (PDict p) =>
                 Ok (dict_update [("geometry"%string, geom)]
                       (map (fun kv => (fst kv, Val (snd kv))) p))
             | Some _ => Raise (TypeError "properties is not a mapping")
             | None => Raise (KeyError "properties")
             end = Ok row).
  { destruct (truthy g).
    - destruct (shape g) as [s|e]; simpl in H; [|discriminate].
      exists (Geom s). destruct (dict_get "properties" f) as [[]|]; apply H.
    - exists (Val PNone). destruct (dict_get "properties" f) as [[]|]; apply H. }
  clear H. destruct Hrow as [geom H].
  destruct (dict_get "properties" f) as [[| | | | | | |p]|]; try discriminate;
    injection H as <-.
  - split; [now left|]. intros k Hk. simpl. split; [|discriminate].
    intros [E|[]]. now elim Hk.
  - split.
    + apply in_keys_update. left. now left.
    + intros k Hk. rewrite in_keys_update, keys_of_values, dict_mem_in_keys.
      simpl. split; [intros [[E|[]]|H]; [now elim Hk | assumption] | auto].
Qed.

Lemma feature_rows_keys (feats : list pyval) :
  forall rows : list (list (string * cell geometry)),
    mapM (feature_row shape) feats = Ok rows ->
    (feats <> [] ->
     exists r, In r rows /\ In "geometry"%string (dict_keys r))
    /\ forall k, k <> "geometry"%string ->
                 ((exists r, In r rows /\ In k (dict_keys r))
                  <-> carries k feats = true).
Proof.
  induction feats as [|f rest IH]; simpl; intros rows H.
  - injection H as <-. split; [intros Hne; now elim Hne|].
    intros k _. split; [intros [r [[] _]] | discriminate].
  - destruct (feature_row shape f) as [row|e] eqn:Hf; simpl in H;
      [|discriminate].
    destruct (mapM (feature_row shape) rest) as [rows'|e]; simpl in H;
      [|discriminate].
    injection H as <-.
    destruct (feature_row_keys f row Hf) as [Hg Hk].
    destruct (IH rows' eq_refl) as [_ IHk].
    split; [intros _; exists row; split; [now left | assumption]|].
    intros k Hne. rewrite orb_true_iff, <- (Hk k Hne), <- (IHk k Hne).
    split.
    + intros [r [[<-|Hin] Hr]]; [now left | right; eauto].
    + intros [Hr|[r [Hin Hr]]]; [exists row | exists r]; simpl; auto.
Qed.


(** C7, amended. Every table [get_functional_zones] returns has none of
    the bookkeeping columns; when the [features] of the response is a list,
    the table has the geometry column, has [landuse_zone] exactly when the
    properties of some feature have a [properties] or a [landuse_zone] key,
    and has [zone_type_id] exactly when the properties of some feature have
    a [functional_zone_type] or a [zone_type_id] key. *)
Theorem zones_columns (scenario_id : Z) (is_context : bool)
        (source_arg : option string) (result : GeoDataFrame geometry) :
  get_functional_zones get shape crs_without_geometry scenario_id
                       is_context source_arg = Ok result ->
  exists source_data source year response features,
    get_functional_zone_sources get scenario_id source_arg = Ok source_data
    /\ dict_get "source" source_data = Some source
    /\ dict_get "year" source_data = Some year
    /\ get _ (functional_zones_url scenario_id year source) = Ok response
    /\ dict_get "features" response = Some features
    /\ (forall name, In name bookkeeping ->
                     in_columns name (table result) = false)
    /\ forall feats,
         features = PList feats ->
         in_columns "geometry" (table result) = true
         /\ in_columns "landuse_zone" (table result)
            = carries "properties" feats || carries "landuse_zone" feats
         /\ in_columns "zone_type_id" (table result)
            = carries "functional_zone_type" feats
              || carries "zone_type_id" feats.
Proof.
  intros H.
  destruct (zones_returned scenario_id is_context source_arg result H)
    as (sd & source & year & response & features & extracted
        & Hs & Hsrc & Hyear & Hr & Hf & Ht & He & ->).
  exists sd, source, year, response, features.
  destruct (extract_zones_built features extracted He) as [raw [Hraw Htab]].
  simpl table. repeat split; auto.
  - intros name Hin. rewrite in_columns_replace_defaults, Htab, in_columns_drop.
    apply existsb_eqb_in in Hin. now rewrite Hin.
  - subst features.
    destruct (from_features_rows feats (EPSG 4326) raw Hraw)
      as [rows [Hrows Hfr]].
    destruct (feature_rows_keys feats rows Hrows) as [Hgeo _].
    rewrite in_columns_replace_defaults, Htab, in_columns_drop,
      in_columns_flatten_zone_type, !in_columns_flatten_properties, Hfr,
        ?in_columns_from_records.
    simpl. rewrite !orb_false_r.
    apply in_columns_record_cells. apply Hgeo. intros ->. discriminate.
  - subst features.
    destruct (from_features_rows feats (EPSG 4326) raw Hraw)
      as [rows [Hrows Hfr]].
    destruct (feature_rows_keys feats rows Hrows) as [_ Hk].
    rewrite in_columns_replace_defaults, Htab, in_columns_drop,
      in_columns_flatten_zone_type, !in_columns_flatten_properties, Hfr,
        ?in_columns_from_records.
    simpl. rewrite orb_false_r, orb_comm.
    apply eq_true_iff_eq.
    rewrite !orb_true_iff, !in_columns_record_cells.
    rewrite (Hk "properties"%string), (Hk "landuse_zone"%string);
      [tauto | discriminate | discriminate].
  - subst features.
    destruct (from_features_rows feats (EPSG 4326) raw Hraw)
      as [rows [Hrows Hfr]].
    destruct (feature_rows_keys feats rows Hrows) as [_ Hk].
    rewrite in_columns_replace_defaults, Htab, in_columns_drop,
      in_columns_flatten_zone_type, !in_columns_flatten_properties, Hfr,
        ?in_columns_from_records.
    simpl. rewrite !orb_false_r, orb_comm.
    apply eq_true_iff_eq.
    rewrite !orb_true_iff, !in_columns_record_cells.
    rewrite (Hk "functional_zone_type"%string), (Hk "zone_type_id"%string);
      [tauto | discriminate | discriminate].
Qed.

(** A response without zone features never yields a table. *)
Lemma zones_empty_never_returned (scenario_id : Z) (is_context : bool)
      (source_arg : option string) (source_data : pydict)
      (source year : pyval) (response : pydict) :
  get_functional_zone_sources get scenario_id source_arg = Ok source_data ->
  dict_get "source" source_data = Some source ->
  dict_get "year" source_data = Some year ->
  get _ (functional_zones_url scenario_id year source) = Ok response ->
  response = [] \/ dict_get "features" response = Some (PList []) ->
  forall result,
    get_functional_zones get shape crs_without_geometry scenario_id
                         is_context source_arg <> Ok result.
Proof.
  intros Hs Hsrc Hyear Hr Hzero result H.
  destruct (zones_returned scenario_id is_context source_arg result H)
    as (sd & source' & year' & response' & features & extracted
        & Hs' & Hsrc' & Hyear' & Hr' & Hf & Ht & _).
  rewrite Hs in Hs'. injection Hs' as <-.
  rewrite Hsrc in Hsrc'. injection Hsrc' as <-.
  rewrite Hyear in Hyear'. injection Hyear' as <-.
  rewrite Hr in Hr'. injection Hr' as <-.
  destruct Hzero as [->|Hzero]; [discriminate|].
  rewrite Hzero in Hf. injection Hf as <-. discriminate.
Qed.

(** C4. Once a source is resolved and the remote service answers the
    functional-zones request with zero features (an empty [features] list,
    or an empty object), the table is built before the guard on the features
    is reached.  When the geospatial library refuses to build a table with a
    CRS and no geometry, its exception leaves [get_functional_zones] and no
    404 is raised; the 404 that names the scenario is raised only when the
    library builds the empty table. *)
Theorem zones_empty_outcome (scenario_id : Z) (is_context : bool)
        (source_arg : option string) (source_data : pydict)
        (source year : pyval) (response : pydict) :
  get_functional_zone_sources get scenario_id source_arg = Ok source_data ->
  dict_get "source" source_data = Some source ->
  dict_get "year" source_data = Some year ->
  get _ (functional_zones_url scenario_id year source) = Ok response ->
  response = [] \/ dict_get "features" response = Some (PList []) ->
  get_functional_zones get shape crs_without_geometry scenario_id
                       is_context source_arg
  = match crs_without_geometry with
    | Ok _ =>
        Raise (http_exception 404
                 "No functional zones found for the given scenario ID"
                 (PInt scenario_id))
    | Raise e => Raise e
    end.
Proof.
  intros Hs Hsrc Hyear Hr Hzero.
  unfold get_functional_zones. rewrite Hs. simpl.
  assert (Hvalid : valid_source source_data = true).
  { unfold valid_source, dict_mem. rewrite Hsrc, Hyear.
    destruct source_data; [discriminate | reflexivity]. }
  rewrite Hvalid. simpl. unfold getitem. rewrite Hsrc, Hyear. simpl.
  rewrite Hr. simpl.
  destruct Hzero as [->|Hzero].
  - simpl. unfold extract_zones, from_features. simpl.
    unfold GeoDataFrame_of. simpl.
    now destruct crs_without_geometry.
  - rewrite Hzero. unfold extract_zones, from_features. simpl.
    unfold GeoDataFrame_of. simpl.
    destruct crs_without_geometry; [|reflexivity]. simpl.
    unfold has_features, py_get. rewrite Hzero. simpl.
    now rewrite andb_false_r.
Qed.

(** ** Territory *)

Variable transform : crs_t -> crs_t -> geometry -> geometry.
Variable estimate_utm_crs : GeoDataFrame geometry -> outcome crs_t.

(** C8. When the project id is resolved, the remote service returns the
    territory of that project, its geometry is one shapely reads and a UTM
    zone is estimated for it, [get_territory] returns a table of exactly one
    feature: the remote geometry, transformed from EPSG:4326 to the
    estimated CRS, in a table that carries the estimated CRS. *)
Theorem territory_single_feature (scenario_id : Z) (project_id : pyval)
        (response : pydict) (territory_geometry : pyval)
        (polygon : geometry) (utm : crs_t) :
  get_project_id get scenario_id = Ok project_id ->
  get _ (territory_url project_id) = Ok response ->
  dict_get "geometry" response = Some territory_geometry ->
  truthy territory_geometry = true ->
  shape territory_geometry = Ok polygon ->
  estimate_utm_crs {| table := [("geometry"%string, [Geom polygon])];
                      crs := Some (EPSG 4326) |} = Ok utm ->
  get_territory get shape transform crs_without_geometry estimate_utm_crs
                scenario_id
  = Ok {| table := [("geometry"%string,
                     [Geom (transform (EPSG 4326) utm polygon)])];
          crs := Some utm |}.
Proof.
  intros Hid Hr Hg Ht Hshape Hutm.
  unfold get_territory. rewrite Hid. simpl. rewrite Hr. simpl.
  unfold getitem. rewrite Hg. simpl.
  unfold from_features. simpl. rewrite Ht, Hshape. simpl.
  unfold GeoDataFrame_of. simpl.
  change (from_records missing infer_cells
              [[("geometry"%string, Geom polygon)]])
    with [("geometry"%string, [Geom polygon])].
  rewrite Hutm. reflexivity.
Qed.

End Zones.


(** C7, as stated, fails on a zone that has no nested [properties] object:
    the table is returned without a [landuse_zone] column. *)
Lemma zones_without_landuse_column :
  get_functional_zones (zones_remote (feature_collection [bare_zone]))
                       symbolic_shape (Ok tt) 7 false None
  = Ok bare_table
  /\ in_columns "landuse_zone" (table bare_table) = false.
Proof. split; reflexivity. Qed.

Lemma zones_columns_witness :
  exists source_data source year response features,
    get_functional_zone_sources
      (zones_remote (feature_collection [business_zone])) 7 None
    = Ok source_data
    /\ dict_get "source" source_data = Some source
    /\ dict_get "year" source_data = Some year
    /\ zones_remote (feature_collection [business_zone])
                    (functional_zones_url 7 year source) = Ok response
    /\ dict_get "features" response = Some features
    /\ (forall name, In name bookkeeping ->
                     in_columns name (table business_table) = false)
    /\ forall feats,
         features = PList feats ->
         in_columns "geometry" (table business_table) = true
         /\ in_columns "landuse_zone" (table business_table)
            = carries "properties" feats || carries "landuse_zone" feats
         /\ in_columns "zone_type_id" (table business_table)
            = carries "functional_zone_type" feats
              || carries "zone_type_id" feats.
Proof.
  apply (zones_columns
           (zones_remote (feature_collection [business_zone]))
           symbolic_geometry symbolic_shape (Ok tt) 7 false None
           business_table).
  reflexivity.
Defined.

Lemma zones_empty_outcome_witness :
  get_functional_zones (zones_remote (feature_collection []))
                       symbolic_shape crs_refused 7 false None
  = Raise (ValueError
             "Assigning CRS to a GeoDataFrame without a geometry column is not supported")
  /\ is_not_found
       (get_functional_zones (zones_remote (feature_collection []))
                             symbolic_shape crs_refused 7 false None)
     = false.
Proof.
  assert (H : get_functional_zones (zones_remote (feature_collection []))
                                   symbolic_shape crs_refused 7 false None
              = Raise (ValueError
                         "Assigning CRS to a GeoDataFrame without a geometry column is not supported")).
  { apply (zones_empty_outcome
             (zones_remote (feature_collection []))
             symbolic_geometry symbolic_shape crs_refused 7 false None
             osm22 (PStr "OSM") (PInt 2022) (feature_collection [])).
    - reflexivity.
    - reflexivity.
    - reflexivity.
    - reflexivity.
    - right. reflexivity. }
  split; [exact H | now rewrite H].
Defined.

(** With a library that builds the empty table, the same response gives
    the 404. *)
Example zones_empty_accepted :
  get_functional_zones (zones_remote (feature_collection []))
                       symbolic_shape (Ok tt) 7 false None
  = Raise (http_exception 404
             "No functional zones found for the given scenario ID" (PInt 7)).
Proof. reflexivity. Qed.

Lemma territory_single_feature_witness :
  get_territory territory_remote symbolic_shape Projected (Ok tt) utm36n 7
  = Ok {| table := [("geometry",
                     [Geom (Projected (EPSG 4326) (EPSG 32636) (Shape square))])];
          crs := Some (EPSG 32636) |}.
Proof.
  apply (territory_single_feature
           territory_remote symbolic_geometry symbolic_shape (Ok tt)
           Projected utm36n 7 (PInt 120) [("geometry", square)] square
           (Shape square) (EPSG 32636)).
  - reflexivity.
  - reflexivity.
  - reflexivity.
  - reflexivity.
  - reflexivity.
  - reflexivity.
Defined.

(** * Further properties of the gateway *)

(** ** Source selection and sources lookup *)

Lemma source_names_missing (sources : list pydict) :
  (exists d, In d sources /\ dict_get "source" d = None) ->
  mapM (fun item => getitem item "source") sources
  = Raise (KeyError "source").
Proof.
  induction sources as [|d rest IH]; intros [d' [Hin Hd']]; [destruct Hin|].
  simpl. unfold getitem at 1.
  destruct (dict_get "source" d) as [v|] eqn:Hd; [|reflexivity].
  simpl. rewrite IH; [reflexivity|].
  destruct Hin as [<-|Hin]; [congruence | eauto].
Qed.

(** X1. [_form_source_params] on a list that is not a singleton and is
    empty or holds a descriptor without a [source] key: the [KeyError] of the
    lookup of that key leaves the function, before any label is compared. *)
Theorem form_source_params_missing_source (sources : list pydict) :
  List.length sources <> 1%nat ->
  sources = [] \/ (exists d, In d sources /\ dict_get "source" d = None) ->
  _form_source_params sources = Raise (KeyError "source").
Proof.
  intros Hlen [->|Hmiss]; [reflexivity|].
  destruct sources as [|x [|y rest]].
  - destruct Hmiss as [d [[] _]].
  - now elim Hlen.
  - unfold _form_source_params.
    now rewrite (source_names_missing (x :: y :: rest) Hmiss).
Qed.

Lemma form_source_params_missing_source_witness :
  _form_source_params [osm20; undated19] = Raise (KeyError "source").
Proof.
  apply (form_source_params_missing_source [osm20; undated19]).
  - simpl. lia.
  - right. exists undated19. split; [right; left|]; reflexivity.
Defined.

(** X2. Whatever the explicit lookup returns is a descriptor of the remote
    list that carries the requested source: with a non-empty source argument
    the lookup never answers with a descriptor of another source. *)
Theorem sources_lookup_returns_listed
        (get : forall R, endpoint R -> outcome R) (scenario_id : Z)
        (name : string) (response : list pydict) (found : pydict) :
  get _ (functional_zone_sources_url scenario_id) = Ok response ->
  name <> EmptyString ->
  get_functional_zone_sources get scenario_id (Some name) = Ok found ->
  In found response /\ has_label name found = true.
Proof.
  intros Hget Hname H. unfold get_functional_zone_sources in H.
  rewrite Hget in H. simpl in H.
  destruct response as [|d rest]; [discriminate|].
  apply String.eqb_neq in Hname. rewrite Hname in H. simpl negb in H.
  cbv iota in H.
  destruct (find (fun s => eq_str (py_get s "source") name) (d :: rest))
    as [[|kv fields]|] eqn:Hfind; try discriminate.
  injection H as <-. apply find_some in Hfind. exact Hfind.
Qed.

Lemma sources_lookup_returns_listed_witness :
  In pzz21 [user19; pzz21; osm22] /\ has_label "PZZ" pzz21 = true.
Proof.
  apply (sources_lookup_returns_listed
           (sources_only [user19; pzz21; osm22]) 7 "PZZ"
           [user19; pzz21; osm22] pzz21).
  - reflexivity.
  - discriminate.
  - reflexivity.
Defined.

(** X3. The sources lookup does not translate a failure of the remote call:
    the exception of the handler reaches the caller as it is.  An empty
    remote list gives the 404 that names the scenario whatever the source
    argument is. *)
Theorem sources_lookup_failures
        (get : forall R, endpoint R -> outcome R) (scenario_id : Z)
        (source : option string) :
  (forall e,
      get _ (functional_zone_sources_url scenario_id) = Raise e ->
      get_functional_zone_sources get scenario_id source = Raise e)
  /\ (get _ (functional_zone_sources_url scenario_id) = Ok [] ->
      get_functional_zone_sources get scenario_id source
      = Raise (http_exception 404
                 "No functional zone sources found for scenario_id"
                 (PInt scenario_id))).
Proof.
  unfold get_functional_zone_sources.
  split; [intros e H | intros H]; now rewrite H.
Qed.

Lemma sources_lookup_failures_witness :
  get_functional_zone_sources offline 7 (Some "OSM")
  = Raise (RemoteError "connection refused")
  /\ get_functional_zone_sources (sources_only []) 7 None
     = Raise (http_exception 404
                "No functional zone sources found for scenario_id" (PInt 7)).
Proof.
  split.
  - apply (proj1 (sources_lookup_failures offline 7 (Some "OSM"))).
    reflexivity.
  - apply (proj2 (sources_lookup_failures (sources_only []) 7 None)).
    reflexivity.
Defined.

Lemma sources_lookup_no_match
      (get : forall R, endpoint R -> outcome R) (scenario_id : Z)
      (name : string) (response : list pydict) :
  get _ (functional_zone_sources_url scenario_id) = Ok response ->
  response <> [] ->
  name <> EmptyString ->
  (forall d, In d response -> has_label name d = false) ->
  get_functional_zone_sources get scenario_id (Some name)
  = Raise (http_exception 404 "No data found for the specified source"
                          (PStr name)).
Proof.
  intros Hget Hne Hname Hnone. unfold get_functional_zone_sources.
  rewrite Hget. simpl. destruct response as [|d rest]; [now elim Hne|].
  apply String.eqb_neq in Hname. rewrite Hname. simpl negb. cbv iota.
  now rewrite (find_no_label name (d :: rest) Hnone).
Qed.

Lemma latest_of_no_label (name : string) (sources : list pydict) :
  sources <> [] ->
  forallb descriptor sources = true ->
  existsb (has_label name) sources = false ->
  latest_of (from_records PNaN infer_objects sources) name
  = Raise (ValueError "attempt to get argmax of an empty sequence").
Proof.
  intros Hne Hwf Hnone. rewrite latest_of_years; auto.
  now rewrite (idxmax_no_label name sources Hnone 0).
Qed.

(** ** Functional zones: failures *)

Section ZoneFailures.
Variable get : forall R, endpoint R -> outcome R.
Variable geometry : Type.
Variable shape : pyval -> outcome geometry.
Variable crs_without_geometry : outcome unit.

(** X4. When the sources lookup answers with a descriptor that lacks the
    [source] or the [year] key, [get_functional_zones] fails with the 404
    that names the scenario. *)
Theorem zones_invalid_source_not_found (scenario_id : Z) (is_context : bool)
        (source_arg : option string) (source_data : pydict) :
  get_functional_zone_sources get scenario_id source_arg = Ok source_data ->
  dict_get "source" source_data = None
  \/ dict_get "year" source_data = None ->
  get_functional_zones get shape crs_without_geometry scenario_id
                       is_context source_arg
  = Raise (http_exception 404
             "No valid source found for the given scenario ID"
             (PInt scenario_id)).
Proof.
  intros Hs Hmiss. unfold get_functional_zones. rewrite Hs. simpl.
  assert (Hvalid : valid_source source_data = false).
  { unfold valid_source, dict_mem.
    destruct Hmiss as [H|H]; rewrite H.
    - now rewrite andb_false_r.
    - now rewrite andb_false_r. }
  now rewrite Hvalid.
Qed.

(** X5. With a non-empty source argument that no descriptor of a non-empty
    remote list carries, [get_functional_zones] fails with the 404 of the
    sources lookup, which carries the requested source name. *)
Theorem zones_absent_source_not_found (scenario_id : Z) (is_context : bool)
        (name : string) (response : list pydict) :
  get _ (functional_zone_sources_url scenario_id) = Ok response ->
  response <> [] ->
  name <> EmptyString ->
  (forall d, In d response -> has_label name d = false) ->
  get_functional_zones get shape crs_without_geometry scenario_id
                       is_context (Some name)
  = Raise (http_exception 404 "No data found for the specified source"
                          (PStr name)).
Proof.
  intros Hget Hne Hname Hnone. unfold get_functional_zones.
  now rewrite (sources_lookup_no_match get scenario_id name response
                 Hget Hne Hname Hnone).
Qed.

(** X6. Without a source argument, on a remote list of two or more
    descriptors none of which is labelled OSM, PZZ or User,
    [get_functional_zones] fails with the [ValueError] of the selection, not
    with a 404. *)
Theorem zones_unlabelled_sources_value_error (scenario_id : Z)
        (is_context : bool) (response : list pydict) :
  get _ (functional_zone_sources_url scenario_id) = Ok response ->
  (2 <= List.length response)%nat ->
  forallb descriptor response = true ->
  spec_preferred_label response = None ->
  get_functional_zones get shape crs_without_geometry scenario_id
                       is_context None
  = Raise (ValueError "attempt to get argmax of an empty sequence").
Proof.
  intros Hget Hlen Hwf Hpref.
  unfold get_functional_zones, get_functional_zone_sources.
  rewrite Hget. simpl.
  destruct response as [|x rest]; [simpl in Hlen; lia|].
  rewrite (form_source_params_many (x :: rest)) by (assumption || lia).
  unfold spec_preferred_label in Hpref.
  destruct (existsb (has_label "OSM") (x :: rest)); [discriminate|].
  destruct (existsb (has_label "PZZ") (x :: rest)); [discriminate|].
  destruct (existsb (has_label "User") (x :: rest)) eqn:Huser; [discriminate|].
  rewrite (latest_of_no_label "User" (x :: rest)); auto. discriminate.
Qed.

(** X7. The request for the zones is not guarded: when a source is resolved
    and the remote call for the zones fails, the exception of the handler
    reaches the caller as it is, not as a 404. *)
Theorem zones_remote_failure_unwrapped (scenario_id : Z) (is_context : bool)
        (source_arg : option string) (source_data : pydict)
        (source year : pyval) (e : exn) :
  get_functional_zone_sources get scenario_id source_arg = Ok source_data ->
  dict_get "source" source_data = Some source ->
  dict_get "year" source_data = Some year ->
  get _ (functional_zones_url scenario_id year source) = Raise e ->
  get_functional_zones get shape crs_without_geometry scenario_id
                       is_context source_arg
  = Raise e.
Proof.
  intros Hs Hsrc Hyear Hr. unfold get_functional_zones. rewrite Hs. simpl.
  assert (Hvalid : valid_source source_data = true).
  { unfold valid_source, dict_mem. rewrite Hsrc, Hyear.
    destruct source_data; [discriminate | reflexivity]. }
  rewrite Hvalid. simpl. unfold getitem. rewrite Hsrc, Hyear. simpl.
  now rewrite Hr.
Qed.

(** X8. A response that is not empty and has no [features] key is handed to
    [from_features] as it is, and the failure there comes before the guard
    on the features: the operation neither returns a table nor raises a
    404. *)
Theorem zones_without_features_key (scenario_id : Z) (is_context : bool)
        (source_arg : option string) (source_data : pydict)
        (source year : pyval) (response : pydict) :
  get_functional_zone_sources get scenario_id source_arg = Ok source_data ->
  dict_get "source" source_data = Some source ->
  dict_get "year" source_data = Some year ->
  get _ (functional_zones_url scenario_id year source) = Ok response ->
  response <> [] ->
  dict_get "features" response = None ->
  get_functional_zones get shape crs_without_geometry scenario_id
                       is_context source_arg
  = Raise (if eq_str (py_get response "type") "FeatureCollection"
           then KeyError "features"
           else TypeError "feature is not a mapping").
Proof.
  intros Hs Hsrc Hyear Hr Hne Hf. unfold get_functional_zones.
  rewrite Hs. simpl.
  assert (Hvalid : valid_source source_data = true).
  { unfold valid_source, dict_mem. rewrite Hsrc, Hyear.
    destruct source_data; [discriminate | reflexivity]. }
  rewrite Hvalid. simpl. unfold getitem. rewrite Hsrc, Hyear. simpl.
  rewrite Hr. simpl. rewrite Hf.
  unfold extract_zones, from_features.
  destruct (eq_str (py_get response "type") "FeatureCollection").
  - unfold getitem. now rewrite Hf.
  - destruct response as [|kv rest]; [now elim Hne|]. reflexivity.
Qed.

End ZoneFailures.

Lemma zones_invalid_source_not_found_witness :
  get_functional_zones (sources_only [osm_undated]) symbolic_shape (Ok tt)
                       7 false (Some "OSM")
  = Raise (http_exception 404
             "No valid source found for the given scenario ID" (PInt 7)).
Proof.
  apply (zones_invalid_source_not_found
           (sources_only [osm_undated]) symbolic_geometry symbolic_shape
           (Ok tt) 7 false (Some "OSM") osm_undated).
  - reflexivity.
  - right. reflexivity.
Defined.

Lemma zones_absent_source_not_found_witness :
  get_functional_zones (sources_only [pzz21; user23]) symbolic_shape (Ok tt)
                       7 false (Some "OSM")
  = Raise (http_exception 404 "No data found for the specified source"
                          (PStr "OSM")).
Proof.
  apply (zones_absent_source_not_found
           (sources_only [pzz21; user23]) symbolic_geometry symbolic_shape
           (Ok tt) 7 false "OSM" [pzz21; user23]).
  - reflexivity.
  - discriminate.
  - discriminate.
  - intros d [<-|[<-|[]]]; reflexivity.
Defined.

Lemma zones_unlabelled_sources_value_error_witness :
  get_functional_zones (sources_only [survey20; cadastre21]) symbolic_shape
                       (Ok tt) 7 false None
  = Raise (ValueError "attempt to get argmax of an empty sequence").
Proof.
  apply (zones_unlabelled_sources_value_error
           (sources_only [survey20; cadastre21]) symbolic_geometry
           symbolic_shape (Ok tt) 7 false [survey20; cadastre21]).
  - reflexivity.
  - simpl. lia.
  - reflexivity.
  - reflexivity.
Defined.

Lemma zones_remote_failure_unwrapped_witness :
  get_functional_zones zoneless_remote symbolic_shape (Ok tt) 7 false None
  = Raise (RemoteError "connection refused").
Proof.
  apply (zones_remote_failure_unwrapped
           zoneless_remote symbolic_geometry symbolic_shape (Ok tt) 7 false
           None osm22 (PStr "OSM") (PInt 2022)
           (RemoteError "connection refused")).
  - reflexivity.
  - reflexivity.
  - reflexivity.
  - reflexivity.
Defined.

Lemma zones_without_features_key_witness :
  get_functional_zones (zones_remote [("detail", PStr "Not Found")])
                       symbolic_shape (Ok tt) 7 false None
  = Raise (TypeError "feature is not a mapping").
Proof.
  apply (zones_without_features_key
           (zones_remote [("detail", PStr "Not Found")]) symbolic_geometry
           symbolic_shape (Ok tt) 7 false None osm22 (PStr "OSM") (PInt 2022)
           [("detail", PStr "Not Found")]).
  - reflexivity.
  - reflexivity.
  - reflexivity.
  - reflexivity.
  - discriminate.
  - reflexivity.
Defined.

(** ** Functional zones: the table *)

Lemma mapM_length (A B : Type) (f : A -> outcome B) (l : list A) :
  forall r, mapM f l = Ok r -> List.length r = List.length l.
Proof.
  induction l as [|a rest IH]; simpl; intros r H.
  - now injection H as <-.
  - destruct (f a) as [b|e]; simpl in H; [|discriminate].
    destruct (mapM f rest) as [bs|e]; simpl in H; [|discriminate].
    injection H as <-. simpl. f_equal. now apply IH.
Qed.

Lemma record_cells_length (C : Type) (na : C)
      (records : list (list (string * C))) (name : string) (col : list C) :
  dict_get name (record_cells na records) = Some col ->
  List.length col = List.length records.
Proof.
  unfold record_cells.
  rewrite (dict_get_tabulate _ (fun name => map (fun r => cell_of na r name) records)).
  destruct (existsb (String.eqb name) (record_columns records)); [|discriminate].
  intros H. injection H as <-. apply length_map.
Qed.

Lemma dict_get_update_absent (V : Type) (k : string) (other : list (string * V)) :
  forall d : list (string * V),
    dict_get k other = None ->
    dict_get k (dict_update d other) = dict_get k d.
Proof.
  unfold dict_update.
  induction other as [|[k' v] rest IH]; intros d H; simpl; [reflexivity|].
  simpl in H. destruct (String.eqb_spec k' k) as [->|Hne]; [discriminate|].
  rewrite (IH _ H). rewrite dict_get_set.
  apply String.eqb_neq in Hne. now rewrite Hne.
Qed.

Section ZoneTables.
Variable get : forall R, endpoint R -> outcome R.
Variable geometry : Type.
Variable shape : pyval -> outcome geometry.
Variable crs_without_geometry : outcome unit.

(** The frame a returned table was made from. *)
Lemma zones_built (scenario_id : Z) (is_context : bool)
      (source_arg : option string) (result : GeoDataFrame geometry) :
  get_functional_zones get shape crs_without_geometry scenario_id
                       is_context source_arg = Ok result ->
  exists source_data source year response features raw,
    get_functional_zone_sources get scenario_id source_arg = Ok source_data
    /\ dict_get "source" source_data = Some source
    /\ dict_get "year" source_data = Some year
    /\ get _ (functional_zones_url scenario_id year source) = Ok response
    /\ dict_get "features" response = Some features
    /\ truthy features = true
    /\ from_features shape crs_without_geometry features (EPSG 4326) = Ok raw
    /\ table result
       = replace_defaults
           (drop_columns bookkeeping
              (flatten_zone_type (flatten_properties (table raw))))
    /\ crs result = crs raw.
Proof.
  intros H.
  destruct (zones_returned get geometry shape crs_without_geometry
              scenario_id is_context source_arg result H)
    as (sd & source & year & response & features & extracted
        & Hs & Hsrc & Hyear & Hr & Hf & Ht & He & ->).
  exists sd, source, year, response, features.
  unfold extract_zones in He. revert He.
  destruct (from_features shape crs_without_geometry features (EPSG 4326))
    as [raw|e]; simpl; [|discriminate].
  intros He. assert (E : extracted
              = {| table := drop_columns bookkeeping
                              (flatten_zone_type
                                 (flatten_properties (table raw)));
                   crs := crs raw |}) by congruence.
  subst extracted. exists raw. simpl. repeat split; auto.
Qed.

Lemma pipeline_length (n : nat) (df : DataFrame (cell geometry)) :
  (forall name col, dict_get name df = Some col -> List.length col = n) ->
  forall name col,
    dict_get name
      (replace_defaults
         (drop_columns bookkeeping
            (flatten_zone_type (flatten_properties df)))) = Some col ->
    List.length col = n.
Proof.
  intros Hdf name col.
  rewrite dict_get_replace_defaults, dict_get_drop.
  destruct (existsb (String.eqb name) bookkeeping); [discriminate|].
  assert (Hp : forall name col,
             dict_get name (flatten_properties df) = Some col ->
             List.length col = n).
  { intros k c. unfold flatten_properties.
    destruct (dict_get "properties" df) as [props|] eqn:Hprops; [|apply Hdf].
    unfold set_column. rewrite dict_get_set.
    destruct ("landuse_zone" =? k)%string; [|apply Hdf].
    intros E. injection E as <-. unfold infer_cells.
    rewrite infer_dtype_length, length_map. eapply Hdf; eauto. }
  assert (Hz : forall name col,
             dict_get name (flatten_zone_type (flatten_properties df))
             = Some col ->
             List.length col = n).
  { intros k c. unfold flatten_zone_type.
    destruct (dict_get "functional_zone_type" (flatten_properties df))
      as [types|] eqn:Htypes; [|apply Hp].
    unfold set_column. rewrite !dict_get_set.
    destruct ("zone_type_name" =? k)%string.
    - intros E. injection E as <-. unfold infer_cells.
      rewrite infer_dtype_length, length_map. eapply Hp; eauto.
    - destruct ("zone_type_id" =? k)%string; [|apply Hp].
      intros E. injection E as <-. unfold infer_cells.
      rewrite infer_dtype_length, length_map. eapply Hp; eauto. }
  destruct (dict_get name (flatten_zone_type (flatten_properties df)))
    as [c|] eqn:Hc; [|discriminate].
  simpl. intros E. injection E as <-. rewrite length_map. eapply Hz; eauto.
Qed.

(** X9. A returned table has one row per feature of the response: every
    column holds as many cells as the [features] list has features. *)
Theorem zones_row_per_feature (scenario_id : Z) (is_context : bool)
        (source_arg : option string) (result : GeoDataFrame geometry) :
  get_functional_zones get shape crs_without_geometry scenario_id
                       is_context source_arg = Ok result ->
  exists source_data source year response features,
    get_functional_zone_sources get scenario_id source_arg = Ok source_data
    /\ dict_get "source" source_data = Some source
    /\ dict_get "year" source_data = Some year
    /\ get _ (functional_zones_url scenario_id year source) = Ok response
    /\ dict_get "features" response = Some features
    /\ forall feats,
         features = PList feats ->
         forall name col,
           dict_get name (table result) = Some col ->
           List.length col = List.length feats.
Proof.
  intros H.
  destruct (zones_built scenario_id is_context source_arg result H)
    as (sd & source & year & response & features & raw
        & Hs & Hsrc & Hyear & Hr & Hf & Ht & Hraw & Htab & Hcrs).
  exists sd, source, year, response, features. repeat split; auto.
  intros feats -> name col. rewrite Htab.
  destruct (from_features_rows geometry shape crs_without_geometry feats
              (EPSG 4326) raw Hraw) as [rows [Hrows Hfr]].
  apply pipeline_length. intros k c. rewrite Hfr. unfold from_records.
  rewrite dict_get_retyped. intros Hk.
  destruct (dict_get k (record_cells missing rows)) as [c0|] eqn:Hk0;
    [|discriminate].
  simpl in Hk. injection Hk as <-. unfold infer_cells.
  rewrite infer_dtype_length.
  rewrite (record_cells_length _ missing rows k c0 Hk0).
  now apply (mapM_length _ _ (feature_row shape) feats).
Qed.




End ZoneTables.



Lemma dict_get_values (geometry : Type) (k : string) (p : pydict) :
  dict_get k (map (fun kv => (fst kv, @Val geometry (snd kv))) p)
  = option_map Val (dict_get k p).
Proof.
  induction p as [|[k' v] rest IH]; simpl; [reflexivity|].
  now destruct (k' =? k)%string.
Qed.

Section ZoneColumns.
Variable get : forall R, endpoint R -> outcome R.
Variable geometry : Type.
Variable shape : pyval -> outcome geometry.
Variable crs_without_geometry : outcome unit.



Lemma shapes_not_numeric (col : list (cell geometry)) :
  forallb (@shape_or_none geometry) col = true ->
  forallb (none_cell (@cell_value geometry)) col = false ->
  forallb (numeric_cell (@cell_value geometry)) col = false.
Proof.
  induction col as [|c rest IH]; simpl; [discriminate|].
  intros Hs Hn. apply andb_prop in Hs. destruct Hs as [Hc Hrest].
  destruct c as [v|g]; [|reflexivity].
  destruct v; try discriminate. simpl in *. now apply IH.
Qed.

(** A column of shapes and [None] is one of objects. *)
Lemma shapes_typed (col : list (cell geometry)) :
  forallb (@shape_or_none geometry) col = true ->
  infer_cells col = col.
Proof.
  intros Hs. unfold infer_cells.
  destruct (forallb (none_cell (@cell_value geometry)) col) eqn:Hn.
  - now apply infer_dtype_nones.
  - apply infer_dtype_objects. now apply shapes_not_numeric.
Qed.

Lemma shapes_geometry_like (col : list (cell geometry)) :
  forallb (@shape_or_none geometry) col = true ->
  forallb (@geometry_like geometry) col = true.
Proof.
  induction col as [|c rest IH]; simpl; [reflexivity|].
  intros H. apply andb_prop in H. destruct H as [Hc Hrest].
  rewrite (IH Hrest). destruct c as [v|g]; [|reflexivity].
  now destruct v.
Qed.

Lemma feature_row_geometry (f : pyval) (row : list (string * cell geometry)) :
  feature_row shape f = Ok row ->
  carries_one "geometry" f = false ->
  exists c, geometry_cell shape f = Ok c
            /\ cell_of missing row "geometry" = c
            /\ shape_or_none c = true.
Proof.
  unfold feature_row, geometry_cell, carries_one, cell_of.
  destruct f as [| | | | | | |f]; try discriminate.
  unfold getitem.
  destruct (dict_get "geometry" f) as [g|]; simpl; [|discriminate].
  assert (Hgeom : forall geom : cell geometry,
             match dict_get "properties" f with
             | Some PNone => Ok [("geometry"%string, geom)]
             | Some (PDict p) =>
                 Ok (dict_update [("geometry"%string, geom)]
                       (map (fun kv => (fst kv, Val (snd kv))) p))
             | Some _ => Raise (TypeError "properties is not a mapping")
             | None => Raise (KeyError "properties")
             end = Ok row ->
             match dict_get "properties" f with
             | Some (PDict p) => dict_mem "geometry" p
             | _ => false
             end = false ->
             dict_get "geometry" row = Some geom).
  { intros geom H Hc.
    destruct (dict_get "properties" f) as [[| | | | | | |p]|]; try discriminate;
      injection H as <-; [reflexivity|].
    rewrite dict_get_update_absent; [reflexivity|].
    rewrite dict_get_values. unfold dict_mem in Hc.
    now destruct (dict_get "geometry" p). }
  destruct (truthy g).
  - destruct (shape g) as [s|e]; simpl; [|discriminate].
    intros H Hc. exists (Geom s). rewrite (Hgeom (Geom s)); auto.
    + destruct (dict_get "properties" f) as [[]|]; apply H.
  - intros H Hc. exists (Val PNone). rewrite (Hgeom (Val PNone)); auto.
    + destruct (dict_get "properties" f) as [[]|]; apply H.
Qed.

Lemma feature_rows_geometry (feats : list pyval) :
  forall rows : list (list (string * cell geometry)),
    mapM (feature_row shape) feats = Ok rows ->
    carries "geometry" feats = false ->
    mapM (geometry_cell shape) feats
    = Ok (map (fun r => cell_of missing r "geometry") rows)
    /\ forallb (@shape_or_none geometry)
               (map (fun r => cell_of missing r "geometry") rows) = true.
Proof.
  induction feats as [|f rest IH]; simpl; intros rows H Hc.
  - injection H as <-. now split.
  - destruct (feature_row shape f) as [row|e] eqn:Hf; simpl in H;
      [|discriminate].
    destruct (mapM (feature_row shape) rest) as [rows'|e]; simpl in H;
      [|discriminate].
    injection H as <-. apply orb_false_elim in Hc. destruct Hc as [Hc1 Hc2].
    destruct (feature_row_geometry f row Hf Hc1) as [c [Hg [Hcell Hlike]]].
    destruct (IH rows' eq_refl Hc2) as [Hrest Hall].
    rewrite Hg, Hrest. simpl. rewrite Hcell, Hlike, Hall. now split.
Qed.



Lemma pipeline_geometry (df : DataFrame (cell geometry)) :
  dict_get "geometry"
    (replace_defaults
       (drop_columns bookkeeping (flatten_zone_type (flatten_properties df))))
  = dict_get "geometry" df.
Proof.
  rewrite dict_get_replace_defaults, dict_get_drop.
  change (existsb (String.eqb "geometry") bookkeeping) with false. cbv iota.
  assert (H : dict_get "geometry" (flatten_zone_type (flatten_properties df))
              = dict_get "geometry" df).
  { unfold flatten_zone_type, flatten_properties, set_column.
    destruct (dict_get "properties" df);
      destruct (dict_get "functional_zone_type" _);
      rewrite ?dict_get_set; reflexivity. }
  rewrite H. destruct (dict_get "geometry" df) as [col|]; [|reflexivity].
  simpl. f_equal. rewrite <- (map_id col) at 2. now apply map_ext.
Qed.



Lemma from_features_crs (feats : list pyval) (c : crs_t)
      (raw : GeoDataFrame geometry) :
  from_features shape crs_without_geometry (PList feats) c = Ok raw ->
  feats <> [] ->
  carries "geometry" feats = false ->
  crs raw = Some c.
Proof.
  unfold from_features. simpl. intros H Hne Hc.
  destruct (mapM (feature_row shape) feats) as [rows|e] eqn:Hrows;
    simpl in H; [|discriminate].
  destruct (feature_rows_keys geometry shape feats rows Hrows) as [Hgeo _].
  destruct (feature_rows_geometry feats rows Hrows Hc) as [_ Hall].
  unfold GeoDataFrame_of in H.
  rewrite (column_from_records _ missing infer_cells rows "geometry"
             (Hgeo Hne)) in H.
  rewrite (shapes_typed _ Hall), (shapes_geometry_like _ Hall) in H.
  now injection H as <-.
Qed.

(** X11. The post-processing leaves the geometries alone: when no feature
    has a property named [geometry], the geometry column of a returned table
    holds, row by row, the shape of each feature's geometry ([None] for a
    null geometry), and the table is in EPSG:4326. *)
Theorem zones_geometry_kept (scenario_id : Z) (is_context : bool)
        (source_arg : option string) (result : GeoDataFrame geometry) :
  get_functional_zones get shape crs_without_geometry scenario_id
                       is_context source_arg = Ok result ->
  exists source_data source year response features,
    get_functional_zone_sources get scenario_id source_arg = Ok source_data
    /\ dict_get "source" source_data = Some source
    /\ dict_get "year" source_data = Some year
    /\ get _ (functional_zones_url scenario_id year source) = Ok response
    /\ dict_get "features" response = Some features
    /\ forall feats,
         features = PList feats ->
         carries "geometry" feats = false ->
         crs result = Some (EPSG 4326)
         /\ exists col,
             mapM (geometry_cell shape) feats = Ok col
             /\ dict_get "geometry" (table result) = Some col.
Proof.
  intros H.
  destruct (zones_built get geometry shape crs_without_geometry
              scenario_id is_context source_arg result H)
    as (sd & source & year & response & features & raw
        & Hs & Hsrc & Hyear & Hr & Hf & Ht & Hraw & Htab & Hcrs).
  exists sd, source, year, response, features. repeat split; auto.
  - subst features. rewrite Hcrs.
    apply (from_features_crs feats (EPSG 4326) raw Hraw); [|assumption].
    intros ->. discriminate.
  - subst features.
    destruct (from_features_rows geometry shape crs_without_geometry feats
                (EPSG 4326) raw Hraw) as [rows [Hrows Hfr]].
    destruct (feature_rows_keys geometry shape feats rows Hrows) as [Hgeo _].
    destruct (feature_rows_geometry feats rows Hrows H1) as [Hcol Hall].
    exists (map (fun r => cell_of missing r "geometry") rows).
    split; [assumption|].
    rewrite Htab, pipeline_geometry, Hfr.
    rewrite column_from_records by (apply Hgeo; intros ->; discriminate).
    now rewrite (shapes_typed _ Hall).
Qed.


End ZoneColumns.

Lemma zones_row_per_feature_witness :
  exists source_data source year response features,
    get_functional_zone_sources
      (zones_remote (feature_collection [park_zone; business_zone])) 7 None
    = Ok source_data
    /\ dict_get "source" source_data = Some source
    /\ dict_get "year" source_data = Some year
    /\ zones_remote (feature_collection [park_zone; business_zone])
                    (functional_zones_url 7 year source) = Ok response
    /\ dict_get "features" response = Some features
    /\ forall feats,
         features = PList feats ->
         forall name col,
           dict_get name (table park_table) = Some col ->
           List.length col = List.length feats.
Proof.
  apply (zones_row_per_feature
           (zones_remote (feature_collection [park_zone; business_zone]))
           symbolic_geometry symbolic_shape (Ok tt) 7 false None park_table).
  reflexivity.
Defined.


Lemma zones_geometry_kept_witness :
  exists source_data source year response features,
    get_functional_zone_sources
      (zones_remote (feature_collection [park_zone; business_zone])) 7 None
    = Ok source_data
    /\ dict_get "source" source_data = Some source
    /\ dict_get "year" source_data = Some year
    /\ zones_remote (feature_collection [park_zone; business_zone])
                    (functional_zones_url 7 year source) = Ok response
    /\ dict_get "features" response = Some features
    /\ forall feats,
         features = PList feats ->
         carries "geometry" feats = false ->
         crs park_table = Some (EPSG 4326)
         /\ exists col,
             mapM (geometry_cell symbolic_shape) feats = Ok col
             /\ dict_get "geometry" (table park_table) = Some col.
Proof.
  apply (zones_geometry_kept
           (zones_remote (feature_collection [park_zone; business_zone]))
           symbolic_geometry symbolic_shape (Ok tt) 7 false None park_table).
  reflexivity.
Defined.


(** ** Project id and territory *)

Section Territory.
Variable get : forall R, endpoint R -> outcome R.
Variable geometry : Type.
Variable shape : pyval -> outcome geometry.
Variable transform : crs_t -> crs_t -> geometry -> geometry.
Variable crs_without_geometry : outcome unit.
Variable estimate_utm_crs : GeoDataFrame geometry -> outcome crs_t.

(** X13. Given the scenario record, [get_project_id] returns the
    [project_id] of its [project] object as it is, and raises its 404
    exactly when [project] is present and is not an object. *)
Theorem project_id_of_record (scenario_id : Z) (response : pydict) :
  get _ (scenario_url scenario_id) = Ok response ->
  (forall project,
      dict_get "project" response = Some (PDict project) ->
      get_project_id get scenario_id = Ok (py_get project "project_id"))
  /\ (is_not_found (get_project_id get scenario_id) = true
      <-> exists v, dict_get "project" response = Some v
                    /\ forall project, v <> PDict project).
Proof.
  intros Hget. unfold get_project_id. rewrite Hget. simpl. split.
  - intros project Hp. now rewrite Hp.
  - destruct (dict_get "project" response) as [v|]; simpl.
    + destruct v as [| | | | | | |p]; simpl;
        try (split; [intros _; eexists; split; [reflexivity | discriminate]
                    | reflexivity]).
      split; [discriminate|]. intros [v [E Hv]]. injection E as <-.
      now elim (Hv p).
    + split; [discriminate|]. intros [v [E _]]. discriminate.
Qed.

(** X14. The 404 of [get_territory] covers the request for the territory
    only: a failure of the request for the scenario reaches the caller as the
    handler raised it, and a failure of the request for the territory is
    raised as the 404 that names the scenario. *)
Theorem territory_not_found_scope (scenario_id : Z) :
  (forall e,
      get _ (scenario_url scenario_id) = Raise e ->
      get_territory get shape transform crs_without_geometry
                    estimate_utm_crs scenario_id = Raise e)
  /\ (forall project_id e,
         get_project_id get scenario_id = Ok project_id ->
         get _ (territory_url project_id) = Raise e ->
         get_territory get shape transform crs_without_geometry
                       estimate_utm_crs scenario_id
         = Raise (http_exception 404
                    "No territory found for the given scenario ID"
                    (PInt scenario_id))).
Proof.
  split.
  - intros e H. unfold get_territory, get_project_id. now rewrite H.
  - intros project_id e Hid H. unfold get_territory. rewrite Hid. simpl.
    now rewrite H.
Qed.

(** X15. A scenario record that names no project makes [get_territory] ask
    for the territory of the project [None]; when the remote service has
    none, the caller gets the 404 of the territory, not one about the
    missing project id. *)
Theorem territory_of_missing_project (scenario_id : Z) (response : pydict)
        (e : exn) :
  get _ (scenario_url scenario_id) = Ok response ->
  dict_get "project" response = None ->
  get _ (territory_url PNone) = Raise e ->
  get_territory get shape transform crs_without_geometry estimate_utm_crs
                scenario_id
  = Raise (http_exception 404 "No territory found for the given scenario ID"
                          (PInt scenario_id)).
Proof.
  intros Hget Hp Hr. unfold get_territory, get_project_id.
  rewrite Hget. simpl. rewrite Hp. unfold call_get, py_get. simpl.
  now rewrite Hr.
Qed.

(** X16. A territory record without a [geometry] key is not reported as a
    404: the [KeyError] of the lookup leaves [get_territory]. *)
Theorem territory_missing_geometry (scenario_id : Z) (project_id : pyval)
        (response : pydict) :
  get_project_id get scenario_id = Ok project_id ->
  get _ (territory_url project_id) = Ok response ->
  dict_get "geometry" response = None ->
  get_territory get shape transform crs_without_geometry estimate_utm_crs
                scenario_id
  = Raise (KeyError "geometry").
Proof.
  intros Hid Hr Hg. unfold get_territory. rewrite Hid. simpl.
  rewrite Hr. simpl. unfold getitem. now rewrite Hg.
Qed.

(** X17. Every table [get_territory] returns has the geometry column alone,
    with exactly one cell, and carries the CRS that was estimated for it:
    the cell is the shape of the remote geometry transformed from EPSG:4326
    to that CRS, or [None] when the remote geometry is null or empty. *)
Theorem territory_returned_single_row (scenario_id : Z)
        (result : GeoDataFrame geometry) :
  get_territory get shape transform crs_without_geometry estimate_utm_crs
                scenario_id = Ok result ->
  exists project_id response g utm,
    get_project_id get scenario_id = Ok project_id
    /\ get _ (territory_url project_id) = Ok response
    /\ dict_get "geometry" response = Some g
    /\ crs result = Some utm
    /\ ((truthy g = true
         /\ exists s, shape g = Ok s
                      /\ estimate_utm_crs
                           {| table := [("geometry"%string, [Geom s])];
                              crs := Some (EPSG 4326) |} = Ok utm
                      /\ table result
                         = [("geometry"%string,
                             [Geom (transform (EPSG 4326) utm s)])])
        \/ (truthy g = false
            /\ estimate_utm_crs
                 {| table := [("geometry"%string, [Val PNone])];
                    crs := Some (EPSG 4326) |} = Ok utm
            /\ table result = [("geometry"%string, [Val PNone])])).
Proof.
  unfold get_territory. intros H.
  destruct (get_project_id get scenario_id) as [project_id|e];
    simpl in H; [|discriminate].
  destruct (get _ (territory_url project_id)) as [response|e] eqn:Hr;
    simpl in H; [|discriminate].
  unfold getitem in H.
  destruct (dict_get "geometry" response) as [g|] eqn:Hg;
    simpl in H; [|discriminate].
  unfold from_features in H. simpl in H.
  destruct (truthy g) eqn:Ht.
  - destruct (shape g) as [s|e] eqn:Hs; simpl in H; [|discriminate].
    unfold GeoDataFrame_of in H. simpl in H.
    change (from_records missing infer_cells
              [[("geometry"%string, Geom s)]])
      with [("geometry"%string, [Geom s])] in H.
    destruct (estimate_utm_crs _) as [utm|e] eqn:Hutm; simpl in H;
      [|discriminate].
    injection H as <-.
    exists project_id, response, g, utm. repeat split; auto.
    left. split; [exact Ht|]. exists s. repeat split; auto.
  - simpl in H. unfold GeoDataFrame_of in H. simpl in H.
    change (from_records missing infer_cells
              [[("geometry"%string, @Val geometry PNone)]])
      with [("geometry"%string, [@Val geometry PNone])] in H.
    destruct (estimate_utm_crs _) as [utm|e] eqn:Hutm; simpl in H;
      [|discriminate].
    injection H as <-.
    exists project_id, response, g, utm. repeat split; auto.
Qed.

End Territory.

Lemma project_id_of_record_witness :
  get_project_id landless_remote 7 = Ok (PInt 120).
Proof.
  apply (proj1 (project_id_of_record
                  landless_remote 7
                  [("project", PDict [("project_id", PInt 120)])] eq_refl)
               [("project_id", PInt 120)]).
  reflexivity.
Defined.

Lemma territory_not_found_scope_witness :
  get_territory offline symbolic_shape Projected (Ok tt) utm36n 7
  = Raise (RemoteError "connection refused")
  /\ get_territory landless_remote symbolic_shape Projected (Ok tt) utm36n 7
     = Raise (http_exception 404
                "No territory found for the given scenario ID" (PInt 7)).
Proof.
  split.
  - apply (proj1 (territory_not_found_scope
                    offline symbolic_geometry symbolic_shape Projected
                    (Ok tt) utm36n 7)).
    reflexivity.
  - apply (proj2 (territory_not_found_scope
                    landless_remote symbolic_geometry symbolic_shape
                    Projected (Ok tt) utm36n 7)
                 (PInt 120) (RemoteError "connection refused")).
    + reflexivity.
    + reflexivity.
Defined.

Lemma territory_of_missing_project_witness :
  get_territory orphan_remote symbolic_shape Projected (Ok tt) utm36n 7
  = Raise (http_exception 404 "No territory found for the given scenario ID"
                          (PInt 7)).
Proof.
  apply (territory_of_missing_project
           orphan_remote symbolic_geometry symbolic_shape Projected (Ok tt)
           utm36n 7 [("scenario_id", PInt 7)]
           (RemoteError "connection refused")).
  - reflexivity.
  - reflexivity.
  - reflexivity.
Defined.

Lemma territory_missing_geometry_witness :
  get_territory shapeless_remote symbolic_shape Projected (Ok tt) utm36n 7
  = Raise (KeyError "geometry").
Proof.
  apply (territory_missing_geometry
           shapeless_remote symbolic_geometry symbolic_shape Projected
           (Ok tt) utm36n 7 (PInt 120) [("name", PStr "plot")]).
  - reflexivity.
  - reflexivity.
  - reflexivity.
Defined.

Lemma territory_returned_single_row_witness :
  exists project_id response g utm,
    get_project_id territory_remote 7 = Ok project_id
    /\ territory_remote (territory_url project_id) = Ok response
    /\ dict_get "geometry" response = Some g
    /\ Some (EPSG 32636) = Some utm
    /\ ((truthy g = true
         /\ exists s, symbolic_shape g = Ok s
                      /\ utm36n {| table := [("geometry", [Geom s])];
                                   crs := Some (EPSG 4326) |} = Ok utm
                      /\ [("geometry",
                           [Geom (Projected (EPSG 4326) (EPSG 32636)
                                            (Shape square))])]
                         = [("geometry",
                             [Geom (Projected (EPSG 4326) utm s)])])
        \/ (truthy g = false
            /\ utm36n {| table := [("geometry", [Val PNone])];
                         crs := Some (EPSG 4326) |} = Ok utm
            /\ [("geometry",
                 [Geom (Projected (EPSG 4326) (EPSG 32636) (Shape square))])]
               = [("geometry", [Val PNone])])).
Proof.
  apply (territory_returned_single_row
           territory_remote symbolic_geometry symbolic_shape Projected
           (Ok tt) utm36n 7
           {| table := [("geometry",
                         [Geom (Projected (EPSG 4326) (EPSG 32636)
                                          (Shape square))])];
              crs := Some (EPSG 32636) |}).
  reflexivity.
Defined.
